(** * Country lookup service: cache-aside reads with a fallback dataset

    A shallow embedding of [src/countries/countries.service.ts]
    (class [CountriesService]) and of the [GET /countries] handler of
    [CountriesController], together with the properties of the read path
    that the specification states.

    Conventions of the embedding:
    - JavaScript strings are [string]s; the case conversions are the ASCII
      ones (every code of the dataset is ASCII);
    - JavaScript numbers that carry counts, pages and limits are integers
      ([Z]); [total / limit] is a rational, rounded up by [Math.ceil];
    - a plain object is the list of its own enumerable properties in
      insertion order, which is the order [JSON.stringify] follows;
    - the cache manager is a finite map from keys to values, threaded
      through every operation;
    - [async]/[await] is sequential composition; a [throw] is the [Throw]
      outcome. *)

From Stdlib Require Import String Ascii ZArith QArith Qround List Bool Lia.
From Stdlib Require Import DecimalString DecimalPos DecimalZ Sorted Permutation.
From stdpp Require Import gmap strings.

Import ListNotations.
Open Scope string_scope.
Open Scope Z_scope.

(** ** JavaScript built-ins used by the service *)

Module JS.

(** *** Strings *)

Definition is_upper (c : ascii) : bool :=
  ((65 <=? nat_of_ascii c)%nat && (nat_of_ascii c <=? 90)%nat)%bool.

Definition is_lower (c : ascii) : bool :=
  ((97 <=? nat_of_ascii c)%nat && (nat_of_ascii c <=? 122)%nat)%bool.

Definition lower_char (c : ascii) : ascii :=
  if is_upper c then ascii_of_nat (nat_of_ascii c + 32) else c.

Definition upper_char (c : ascii) : ascii :=
  if is_lower c then ascii_of_nat (nat_of_ascii c - 32) else c.

Fixpoint map_chars (f : ascii -> ascii) (s : string) : string :=
  match s with
  | EmptyString => EmptyString
  | String c s' => String (f c) (map_chars f s')
  end.

(** [s.toLowerCase()] and [s.toUpperCase()] on strings of ASCII
    characters, where they are the language's.  On a string with other
    characters (bytes from 128 on) the language also converts letters
    that these two leave alone: the properties of code lookups below are
    stated for ASCII codes. *)
Definition toLowerCase (s : string) : string := map_chars lower_char s.
Definition toUpperCase (s : string) : string := map_chars upper_char s.

(** [s.includes(t)]: [t] occurs in [s] as a contiguous substring. *)
Fixpoint includes (s t : string) : bool :=
  (String.prefix t s
   || match s with
      | EmptyString => false
      | String _ s' => includes s' t
      end)%bool.

(** Truthiness of an optional string: [undefined] and [''] are falsy. *)
Definition truthy (o : option string) : bool :=
  match o with
  | Some s => negb (s =? EmptyString)%string
  | None => false
  end.

(** *** Arrays *)

(** [a.slice(start, end)], with the relative indices of the language:
    a negative index counts from the end, and both are clamped. *)
Definition relative_index (len i : Z) : Z :=
  if i <? 0 then Z.max (len + i) 0 else Z.min i len.

Definition slice {A} (a : list A) (start finish : Z) : list A :=
  let len := Z.of_nat (List.length a) in
  let k := relative_index len start in
  let final := relative_index len finish in
  firstn (Z.to_nat (Z.max (final - k) 0)) (skipn (Z.to_nat k) a).

(** [Math.ceil(a / b)] on integers [a] and [b], [b] not zero. *)
Definition Math_ceil_div (a b : Z) : Z :=
  Qceiling (inject_Z a / inject_Z b).

(** *** Values, objects and [JSON.stringify] *)

#[warnings="-register-all"]
Inductive jsval :=
| JUndefined
| JString (s : string)
| JNumber (n : Z)
| JObject (props : list (string * jsval)).

(** Own enumerable properties, in insertion order. *)
Definition jsobject := list (string * jsval).

(** [o.k]: the value of property [k], [undefined] when [o] has none. *)
Fixpoint get_prop (k : string) (o : jsobject) : jsval :=
  match o with
  | [] => JUndefined
  | (k', v) :: o' => if (k' =? k)%string then v else get_prop k o'
  end.

(** The double quote and the backslash. *)
Definition dquote : ascii := ascii_of_nat 34.
Definition backslash : ascii := ascii_of_nat 92.

Definition hex_digit (n : nat) : ascii :=
  if (n <? 10)%nat then ascii_of_nat (48 + n) else ascii_of_nat (87 + n).

(** One character of a quoted JSON string. *)
Definition quote_char (c : ascii) : string :=
  let n := nat_of_ascii c in
  if (n =? 34)%nat then String backslash (String dquote EmptyString)
  else if (n =? 92)%nat then String backslash (String backslash EmptyString)
  else if (n =? 8)%nat then "\b"
  else if (n =? 12)%nat then "\f"
  else if (n =? 10)%nat then "\n"
  else if (n =? 13)%nat then "\r"
  else if (n =? 9)%nat then "\t"
  else if (n <? 32)%nat then
    "\u00" ++ String (hex_digit (n / 16)) (String (hex_digit (n mod 16)) EmptyString)
  else String c EmptyString.

Fixpoint quote_chars (s : string) : string :=
  match s with
  | EmptyString => EmptyString
  | String c s' => quote_char c ++ quote_chars s'
  end.

(** [QuoteJSONString]. *)
Definition quote (s : string) : string :=
  String dquote (quote_chars s ++ String dquote EmptyString).

(** [Number::toString] of an integer (below [1e21] in magnitude, where
    the language prints all the digits). *)
Definition number_to_string (n : Z) : string :=
  NilZero.string_of_int (Z.to_int n).

Fixpoint join_comma (l : list string) : string :=
  match l with
  | [] => EmptyString
  | [x] => x
  | x :: l' => x ++ "," ++ join_comma l'
  end.

(** [JSON.stringify(v)]; [None] is the [undefined] result, and a
    property whose value serialises to [undefined] is left out. *)
Fixpoint stringify (v : jsval) : option string :=
  match v with
  | JUndefined => None
  | JString s => Some (quote s)
  | JNumber n => Some (number_to_string n)
  | JObject props =>
      let members :=
        (fix go (l : list (string * jsval)) : list string :=
           match l with
           | [] => []
           | (k, x) :: l' =>
               match stringify x with
               | Some sx => (quote k ++ ":" ++ sx) :: go l'
               | None => go l'
               end
           end) props in
      Some ("{" ++ join_comma members ++ "}")
  end.

(** The members that [stringify] writes for the properties of an object:
    its inner loop, by name. *)
Fixpoint members (l : jsobject) : list string :=
  match l with
  | [] => []
  | (k, x) :: l' =>
      match stringify x with
      | Some sx => (quote k ++ ":" ++ sx) :: members l'
      | None => members l'
      end
  end.

(** The interpolation [`${JSON.stringify(v)}`]. *)
Definition stringify_text (v : jsval) : string :=
  match stringify v with
  | Some s => s
  | None => "undefined"
  end.

(** *** Reading a serialisation back *)

(** A value that [stringify] writes. *)
Definition is_defined (v : jsval) : bool :=
  match v with
  | JUndefined => false
  | _ => true
  end.

(** A value without the properties that hold [undefined], at every
    depth: what [stringify] retains of it. *)
Fixpoint normalize (v : jsval) : jsval :=
  match v with
  | JObject props =>
      JObject ((fix go (l : list (string * jsval)) : list (string * jsval) :=
                  match l with
                  | [] => []
                  | (k, x) :: l' =>
                      if is_defined x then (k, normalize x) :: go l' else go l'
                  end) props)
  | _ => v
  end.

Fixpoint norm_props (l : jsobject) : jsobject :=
  match l with
  | [] => []
  | (k, x) :: l' =>
      if is_defined x then (k, normalize x) :: norm_props l' else norm_props l'
  end.

Definition hex_value (c : ascii) : option nat :=
  let n := nat_of_ascii c in
  if ((48 <=? n) && (n <=? 57))%nat then Some (n - 48)%nat
  else if ((97 <=? n) && (n <=? 102))%nat then Some (n - 87)%nat
  else None.

(** The character that a quoted string starts with, and what follows
    it; [None] at the closing quote or at a malformed escape. *)
Definition unquote_char (s : string) : option (ascii * string) :=
  match s with
  | EmptyString => None
  | String c s1 =>
      if Ascii.eqb c dquote then None
      else if Ascii.eqb c backslash then
        match s1 with
        | EmptyString => None
        | String e s2 =>
            if Ascii.eqb e dquote then Some (dquote, s2)
            else if Ascii.eqb e backslash then Some (backslash, s2)
            else if Ascii.eqb e "b" then Some (ascii_of_nat 8, s2)
            else if Ascii.eqb e "f" then Some (ascii_of_nat 12, s2)
            else if Ascii.eqb e "n" then Some (ascii_of_nat 10, s2)
            else if Ascii.eqb e "r" then Some (ascii_of_nat 13, s2)
            else if Ascii.eqb e "t" then Some (ascii_of_nat 9, s2)
            else if Ascii.eqb e "u" then
              match s2 with
              | String _ (String _ (String h (String l s3))) =>
                  match hex_value h, hex_value l with
                  | Some a, Some b => Some (ascii_of_nat (16 * a + b), s3)
                  | _, _ => None
                  end
              | _ => None
              end
            else None
        end
      else Some (c, s1)
  end.

Definition is_digit (c : ascii) : bool :=
  ((48 <=? nat_of_ascii c)%nat && (nat_of_ascii c <=? 57)%nat)%bool.

(** A text that cannot continue a number. *)
Definition no_digit_head (r : string) : Prop :=
  match r with
  | EmptyString => True
  | String c _ => is_digit c = false
  end.

(** What follows the first member of an object. *)
Definition more_members (ms : list string) (t : string) : string :=
  match ms with
  | [] => t
  | _ :: _ => "," ++ join_comma ms ++ t
  end.

(** A serialisation of [v], followed by any text that does not start
    with a digit, is the serialisation of no value that [stringify]
    tells apart from [v], followed by any other text. *)
Definition unique_reading (v : jsval) : Prop :=
  forall (v' : jsval) (s s' r r' : string),
    stringify v = Some s -> stringify v' = Some s' ->
    s ++ r = s' ++ r' ->
    no_digit_head r -> no_digit_head r' ->
    normalize v = normalize v' /\ r = r'.

(** Induction on values, with the properties of an object as premises. *)
Section JsvalInd.
Variable P : jsval -> Prop.
Hypothesis Hu : P JUndefined.
Hypothesis Hs : forall s, P (JString s).
Hypothesis Hn : forall n, P (JNumber n).
Hypothesis Ho : forall o, Forall (fun kv => P (snd kv)) o -> P (JObject o).

Fixpoint jsval_ind' (v : jsval) : P v :=
  match v with
  | JUndefined => Hu
  | JString s => Hs s
  | JNumber n => Hn n
  | JObject o =>
      Ho o ((fix go (l : list (string * jsval)) : Forall (fun kv => P (snd kv)) l :=
               match l with
               | [] => List.Forall_nil _
               | (k, x) :: l' =>
                   @List.Forall_cons _ (fun kv => P (snd kv)) (k, x) l'
                     (jsval_ind' x) (go l')
               end) o)
  end.
End JsvalInd.

End JS.

(** ** Data model *)

Module Dto.

(** [CountryDto] (src/common/dto/country.dto): the fields that
    [transformToDto] fills and the fallback table spells out. *)
Record CountryDto := {
  code : string;
  code3 : string;
  name : string;
  officialName : string;
  capital : string;
  continent : string;
  region : string;
  languages : list string;
  currencies : list string;
  callingCodes : list string;
  isPopularDestination : bool;
  flag : string;
  latitude : Q;
  longitude : Q;
}.

(** [PaginationMetaDto] and [PaginatedResponseDto<CountryDto>]. *)
Record PaginationMetaDto := {
  meta_page : Z;
  meta_limit : Z;
  total : Z;
  totalPages : Z;
  hasNext : bool;
  hasPrev : bool;
}.

Record PaginatedResponseDto := {
  success : bool;
  message : string;
  timestamp : string;
  meta : PaginationMetaDto;
  data : list CountryDto;
}.

(** An element of the continent listing: [{ name, countryCount }]. *)
Record ContinentCount := {
  continent_name : string;
  countryCount : Z;
}.

(** The typed views of the two arguments of [getCountries]. *)
Record CountryFilters := {
  f_continent : option string;
  f_region : option string;
  f_search : option string;
}.

Record PaginationOptions := {
  page : Z;
  limit : Z;
}.

(** Everything the service stores in the cache or hands back.  The cache
    manager is untyped: [get<T>] returns what the key holds. *)
Inductive Value :=
| VPaginated (r : PaginatedResponseDto)
| VCountry (c : CountryDto)
| VCountries (l : list CountryDto)
| VContinentData (l : list ContinentCount)
| VEnvelope (ok : bool) (msg : string) (time : string) (payload : Value).

Inductive exn :=
| NotFoundException (msg : string)
| UpstreamFailure.

Inductive outcome (A : Type) :=
| Return (a : A)
| Throw (e : exn).
Arguments Return {A} a.
Arguments Throw {A} e.

Definition map_outcome {A B} (g : A -> B) (o : outcome A) : outcome B :=
  match o with
  | Return a => Return (g a)
  | Throw e => Throw e
  end.

End Dto.
Import Dto.


(** ** Ordered containers *)

Module Ordered.

Section Sorting.
Context {A : Type} (le : A -> A -> bool).

(** Insertion before the first element that is not smaller: with
    [sort] below this is a stable sort, as [Array.prototype.sort]
    and an [ORDER BY] over a fixed scan are. *)
Fixpoint insert (x : A) (l : list A) : list A :=
  match l with
  | [] => [x]
  | y :: l' => if le x y then x :: y :: l' else y :: insert x l'
  end.

Definition sort (l : list A) : list A := fold_right insert [] l.
End Sorting.

(** A [Map<string, number>]: entries in insertion order; [set] on a
    present key keeps the position of the entry. *)
Definition CountMap := list (string * Z).

Fixpoint Map_get (m : CountMap) (k : string) : option Z :=
  match m with
  | [] => None
  | (k', v) :: m' => if (k' =? k)%string then Some v else Map_get m' k
  end.

Fixpoint Map_set (m : CountMap) (k : string) (v : Z) : CountMap :=
  match m with
  | [] => [(k, v)]
  | (k', v') :: m' =>
      if (k' =? k)%string then (k, v) :: m' else (k', v') :: Map_set m' k v
  end.

End Ordered.

(** ** Store gateway *)

Module Prisma.

(** Modelled from the spec: the schema of the [country] table is not
    among the sources.  A raw row is read through the columns that
    [transformToDto] reads, which are the attributes the spec lists for
    a reference record. *)
Definition CountryRow := CountryDto.

Inductive Column := col_name | col_code | col_code3 | col_continent | col_region.

Definition column (c : Column) (row : CountryRow) : string :=
  match c with
  | col_name => name row
  | col_code => code row
  | col_code3 => code3 row
  | col_continent => continent row
  | col_region => region row
  end.

(** The string filters the service writes, all with [mode: 'insensitive']. *)
Inductive StringFilter :=
| equals_insensitive (s : string)
| contains_insensitive (s : string).

(** The [where] object of the service: the three keys it may set. *)
Record WhereInput := {
  where_continent : option StringFilter;
  where_region : option StringFilter;
  where_OR : option (list (Column * StringFilter));
}.

(** Modelled from the spec: the predicates are "exact, case-insensitive"
    and "substring, case-insensitive" matches on a column, and an
    OR-combination of such matches. *)
Definition string_matches (f : StringFilter) (x : string) : bool :=
  match f with
  | equals_insensitive s => (JS.toLowerCase x =? JS.toLowerCase s)%string
  | contains_insensitive s => JS.includes (JS.toLowerCase x) (JS.toLowerCase s)
  end.

Definition opt_matches (o : option StringFilter) (x : string) : bool :=
  match o with
  | Some f => string_matches f x
  | None => true
  end.

Definition row_matches (w : WhereInput) (row : CountryRow) : bool :=
  (opt_matches (where_continent w) (continent row)
   && opt_matches (where_region w) (region row)
   && match where_OR w with
      | Some alternatives =>
          existsb (fun cf => string_matches (snd cf) (column (fst cf) row))
                  alternatives
      | None => true
      end)%bool.

(** Modelled from the spec: [PrismaService] (src/common/prisma.service)
    and its [country] delegate are not among the sources.  The spec
    gives the gateway a connectivity probe and the queries
    [count(predicate)], [findMany(predicate, order, offset, limit)],
    [findFirst(predicate)] and [groupByCount(field)] over one table;
    here the table is a list of rows, ordering is ascending on the
    bytes of the column, and a negative offset or limit is refused. *)
Record PrismaService := {
  connected : bool;
  country : list CountryRow;
}.

(** Modelled from the spec: [isConnected() -> boolean], read
    synchronously before each operation. *)
Definition isDbConnected (db : PrismaService) : bool := connected db.

(** Modelled from the spec: [count(predicate) -> integer]. *)
Definition count (db : PrismaService) (w : WhereInput) : Z :=
  Z.of_nat (List.length (List.filter (row_matches w) (country db))).

Definition name_asc (a b : CountryRow) : bool := String.leb (name a) (name b).

(** Modelled from the spec: [findMany(predicate, order, offset, limit)],
    here always with [orderBy: { name: 'asc' }]: the matching rows in
    ascending order of name, without the first [skip], cut at [take]. *)
Definition findMany (db : PrismaService) (w : WhereInput) (skip take : Z)
  : option (list CountryRow) :=
  if ((skip <? 0) || (take <? 0))%bool then None
  else Some (firstn (Z.to_nat take)
               (skipn (Z.to_nat skip)
                  (Ordered.sort name_asc (List.filter (row_matches w) (country db))))).

(** Modelled from the spec: the same fetch with no predicate, offset or
    limit, [findMany({ orderBy: { name: 'asc' } })]: all the rows in
    ascending order of name. *)
Definition findMany_all (db : PrismaService) : list CountryRow :=
  Ordered.sort name_asc (country db).

(** Modelled from the spec: [findFirst(predicate) -> raw row or absent]. *)
Definition findFirst (db : PrismaService) (w : WhereInput) : option CountryRow :=
  List.find (row_matches w) (country db).

Definition count_step (m : Ordered.CountMap) (k : string) : Ordered.CountMap :=
  Ordered.Map_set m k (default 0 (Ordered.Map_get m k) + 1).

(** Modelled from the spec: [groupByCount(field)], here
    [groupBy({ by: ['continent'], _count: { continent: true },
    orderBy: { continent: 'asc' } })]: pairs of a continent and the
    number of its rows, in ascending order of continent. *)
Definition groupBy_continent (db : PrismaService) : list (string * Z) :=
  Ordered.sort (fun a b => String.leb (fst a) (fst b))
    (fold_left count_step (List.map continent (country db)) []).

End Prisma.

(** ** Cache layer *)

Module CacheManager.

(** An entry: the value and the time-to-live it was stored with.
    Expiry is the cache layer's own step and is not part of the
    service. *)
Record Entry := {
  entry_value : Value;
  entry_ttl : Z;
}.

Abbreviation Cache := (gmap string Entry).

Definition get (c : Cache) (key : string) : option Value :=
  entry_value <$> c !! key.

Definition set (c : Cache) (key : string) (v : Value) (ttl : Z) : Cache :=
  <[key := {| entry_value := v; entry_ttl := ttl |}]> c.

Definition del (c : Cache) (key : string) : Cache := delete key c.

End CacheManager.

(** ** The service *)

Module CountriesService.

Import JS.

(** What an operation runs against: the injected store gateway and
    cache manager, and the reading of the clock that
    [new Date().toISOString()] yields during the call. *)
Record World := {
  prisma : Prisma.PrismaService;
  cacheManager : CacheManager.Cache;
  now : string;
}.

Definition ALL_COUNTRIES : string := "countries:all".
Definition COUNTRY_BY_CODE : string := "country:code:".
Definition CONTINENTS : string := "countries:continents".
Definition POPULAR_COUNTRIES : string := "countries:popular".
Definition CACHE_TTL : Z := 60 * 60 * 24.

(** The arguments of [getCountries] seen through their interfaces:
    [None] when the object is not of the declared type. *)
Definition optional_string (v : jsval) : option (option string) :=
  match v with
  | JUndefined => Some None
  | JString s => Some (Some s)
  | _ => None
  end.

Definition as_CountryFilters (o : jsobject) : option CountryFilters :=
  c ← optional_string (get_prop "continent" o);
  r ← optional_string (get_prop "region" o);
  s ← optional_string (get_prop "search" o);
  Some {| f_continent := c; f_region := r; f_search := s |}.

Definition as_PaginationOptions (o : jsobject) : option PaginationOptions :=
  match get_prop "page" o, get_prop "limit" o with
  | JNumber p, JNumber l => Some {| page := p; limit := l |}
  | _, _ => None
  end.

Definition transformToDto (country : Prisma.CountryRow) : CountryDto :=
  {| code := code country;
     code3 := code3 country;
     name := name country;
     officialName := officialName country;
     capital := capital country;
     continent := continent country;
     region := region country;
     languages := languages country;
     currencies := currencies country;
     callingCodes := callingCodes country;
     isPopularDestination := isPopularDestination country;
     flag := flag country;
     latitude := latitude country;
     longitude := longitude country |}.

(** *** Fallback dataset *)

Definition getFallbackCountryData : list CountryDto :=
  [ {| code := "US"; code3 := "USA"; name := "United States";
       officialName := "United States of America";
       capital := "Washington, D.C.";
       continent := "North America"; region := "Northern America";
       languages := ["English"]; currencies := ["USD"];
       callingCodes := ["+1"]; isPopularDestination := true;
       flag := "🇺🇸"; latitude := 39.8283; longitude := -98.5795 |};
    {| code := "CA"; code3 := "CAN"; name := "Canada";
       officialName := "Canada"; capital := "Ottawa";
       continent := "North America"; region := "Northern America";
       languages := ["English"; "French"]; currencies := ["CAD"];
       callingCodes := ["+1"]; isPopularDestination := true;
       flag := "🇨🇦"; latitude := 56.1304; longitude := -106.3468 |};
    {| code := "GB"; code3 := "GBR"; name := "United Kingdom";
       officialName := "United Kingdom of Great Britain and Northern Ireland";
       capital := "London";
       continent := "Europe"; region := "Northern Europe";
       languages := ["English"]; currencies := ["GBP"];
       callingCodes := ["+44"]; isPopularDestination := true;
       flag := "🇬🇧"; latitude := 55.3781; longitude := -3.4360 |};
    {| code := "FR"; code3 := "FRA"; name := "France";
       officialName := "French Republic"; capital := "Paris";
       continent := "Europe"; region := "Western Europe";
       languages := ["French"]; currencies := ["EUR"];
       callingCodes := ["+33"]; isPopularDestination := true;
       flag := "🇫🇷"; latitude := 46.2276; longitude := 2.2137 |};
    {| code := "DE"; code3 := "DEU"; name := "Germany";
       officialName := "Federal Republic of Germany"; capital := "Berlin";
       continent := "Europe"; region := "Western Europe";
       languages := ["German"]; currencies := ["EUR"];
       callingCodes := ["+49"]; isPopularDestination := true;
       flag := "🇩🇪"; latitude := 51.1657; longitude := 10.4515 |};
    {| code := "JP"; code3 := "JPN"; name := "Japan";
       officialName := "Japan"; capital := "Tokyo";
       continent := "Asia"; region := "Eastern Asia";
       languages := ["Japanese"]; currencies := ["JPY"];
       callingCodes := ["+81"]; isPopularDestination := true;
       flag := "🇯🇵"; latitude := 36.2048; longitude := 138.2529 |};
    {| code := "AU"; code3 := "AUS"; name := "Australia";
       officialName := "Commonwealth of Australia"; capital := "Canberra";
       continent := "Oceania"; region := "Australia and New Zealand";
       languages := ["English"]; currencies := ["AUD"];
       callingCodes := ["+61"]; isPopularDestination := true;
       flag := "🇦🇺"; latitude := -25.2744; longitude := 133.7751 |} ].

(** [getFallbackCountries]: filter the table, then cut the page out. *)
Definition getFallbackCountries (filters : CountryFilters)
    (pagination : PaginationOptions) (time : string) : PaginatedResponseDto :=
  let filteredCountries := getFallbackCountryData in
  let filteredCountries :=
    if truthy (f_continent filters) then
      List.filter (fun country =>
        (toLowerCase (continent country)
         =? toLowerCase (default EmptyString (f_continent filters)))%string)
        filteredCountries
    else filteredCountries in
  let filteredCountries :=
    if truthy (f_region filters) then
      List.filter (fun country =>
        includes (toLowerCase (region country))
                 (toLowerCase (default EmptyString (f_region filters))))
        filteredCountries
    else filteredCountries in
  let filteredCountries :=
    if truthy (f_search filters) then
      let searchTerm := toLowerCase (default EmptyString (f_search filters)) in
      List.filter (fun country =>
        (includes (toLowerCase (name country)) searchTerm
         || includes (toLowerCase (code country)) searchTerm
         || includes (toLowerCase (code3 country)) searchTerm)%bool)
        filteredCountries
    else filteredCountries in
  let total := Z.of_nat (List.length filteredCountries) in
  let totalPages := Math_ceil_div total (limit pagination) in
  let startIndex := (page pagination - 1) * limit pagination in
  let endIndex := startIndex + limit pagination in
  let paginatedCountries := slice filteredCountries startIndex endIndex in
  {| success := true;
     message := "Countries retrieved successfully (fallback data)";
     timestamp := time;
     meta := {| meta_page := page pagination;
                meta_limit := limit pagination;
                total := total;
                totalPages := totalPages;
                hasNext := page pagination <? totalPages;
                hasPrev := page pagination >? 1 |};
     data := paginatedCountries |}.

Definition not_found (code : string) : exn :=
  NotFoundException ("Country with code '" ++ code ++ "' not found").

(** [getFallbackCountryByCode]. *)
Definition getFallbackCountryByCode (code : string) : outcome CountryDto :=
  let countries := getFallbackCountryData in
  match List.find (fun c =>
          ((toLowerCase (Dto.code c) =? toLowerCase code)%string
           || (toLowerCase (Dto.code3 c) =? toLowerCase code)%string)%bool)
        countries with
  | None => Throw (not_found code)
  | Some country => Return country
  end.

(** [getFallbackContinents].  [localeCompare] belongs to the host's
    collation; it is a parameter of the two operations that sort with it:
    [Lt], [Eq] and [Gt] stand for a negative, zero and positive result. *)
Section Collation.
Variable localeCompare : string -> string -> comparison.

Definition by_name (a b : ContinentCount) : bool :=
  match localeCompare (continent_name a) (continent_name b) with
  | Gt => false
  | _ => true
  end.

Definition getFallbackContinents (time : string) : Value :=
  let countries := getFallbackCountryData in
  let continentCounts :=
    fold_left (fun (m : Ordered.CountMap) country =>
                 let count := default 0 (Ordered.Map_get m (continent country)) in
                 Ordered.Map_set m (continent country) (count + 1))
              countries [] in
  let continentData :=
    Ordered.sort by_name
      (List.map (fun entry => {| continent_name := fst entry;
                                 countryCount := snd entry |})
                continentCounts) in
  VEnvelope true "Continents retrieved successfully (fallback data)" time
            (VContinentData continentData).

(** [getContinents]. *)
Definition getContinents (w : World) : outcome Value * CacheManager.Cache :=
  match CacheManager.get (cacheManager w) CONTINENTS with
  | Some cached =>
      (Return (VEnvelope true "Continents retrieved successfully" (now w) cached),
       cacheManager w)
  | None =>
      if negb (Prisma.isDbConnected (prisma w)) then
        (Return (getFallbackContinents (now w)), cacheManager w)
      else
        let continents := Prisma.groupBy_continent (prisma w) in
        let continentData :=
          List.map (fun c => {| continent_name := fst c; countryCount := snd c |})
                   continents in
        (Return (VEnvelope true "Continents retrieved successfully" (now w)
                           (VContinentData continentData)),
         CacheManager.set (cacheManager w) CONTINENTS
                          (VContinentData continentData) CACHE_TTL)
  end.

End Collation.

(** The [where] object that [getCountries] builds from the filters. *)
Definition where_clause (filters : CountryFilters) : Prisma.WhereInput :=
  {| Prisma.where_continent :=
       if truthy (f_continent filters) then
         Some (Prisma.equals_insensitive (default EmptyString (f_continent filters)))
       else None;
     Prisma.where_region :=
       if truthy (f_region filters) then
         Some (Prisma.contains_insensitive (default EmptyString (f_region filters)))
       else None;
     Prisma.where_OR :=
       if truthy (f_search filters) then
         let search := default EmptyString (f_search filters) in
         Some [ (Prisma.col_name, Prisma.contains_insensitive search);
                (Prisma.col_code, Prisma.contains_insensitive search);
                (Prisma.col_code3, Prisma.contains_insensitive search) ]
       else None |}.

(** The key of a filtered listing:
    [`countries:filtered:${JSON.stringify({ filters, pagination })}`]. *)
Definition filtered_key (filters pagination : jsobject) : string :=
  "countries:filtered:"
  ++ stringify_text (JObject [("filters", JObject filters);
                              ("pagination", JObject pagination)]).

(** [getCountries].  The result is [None] when an argument is not of its
    declared interface type. *)
Definition getCountries (filters pagination : jsobject) (w : World)
  : option (outcome Value * CacheManager.Cache) :=
  f ← as_CountryFilters filters;
  p ← as_PaginationOptions pagination;
  Some
    (if negb (Prisma.isDbConnected (prisma w)) then
       (Return (VPaginated (getFallbackCountries f p (now w))), cacheManager w)
     else
       let cacheKey := filtered_key filters pagination in
       match CacheManager.get (cacheManager w) cacheKey with
       | Some cached => (Return cached, cacheManager w)
       | None =>
           let where' := where_clause f in
           let total := Prisma.count (prisma w) where' in
           match Prisma.findMany (prisma w) where'
                   ((page p - 1) * limit p) (limit p) with
           | None => (Throw UpstreamFailure, cacheManager w)
           | Some countries =>
               let countryDtos := List.map transformToDto countries in
               let totalPages := Math_ceil_div total (limit p) in
               let meta := {| meta_page := page p;
                              meta_limit := limit p;
                              Dto.total := total;
                              Dto.totalPages := totalPages;
                              hasNext := page p <? totalPages;
                              hasPrev := page p >? 1 |} in
               let result := {| success := true;
                                message := "Countries retrieved successfully";
                                timestamp := now w;
                                Dto.meta := meta;
                                data := countryDtos |} in
               (Return (VPaginated result),
                CacheManager.set (cacheManager w) cacheKey (VPaginated result)
                                 CACHE_TTL)
           end
       end).

(** [getCountryByCode]. *)
Definition getCountryByCode (code : string) (w : World)
  : outcome Value * CacheManager.Cache :=
  let cacheKey := COUNTRY_BY_CODE ++ toUpperCase code in
  match CacheManager.get (cacheManager w) cacheKey with
  | Some cached => (Return cached, cacheManager w)
  | None =>
      if negb (Prisma.isDbConnected (prisma w)) then
        (map_outcome VCountry (getFallbackCountryByCode code), cacheManager w)
      else
        match Prisma.findFirst (prisma w)
                {| Prisma.where_continent := None;
                   Prisma.where_region := None;
                   Prisma.where_OR :=
                     Some [ (Prisma.col_code,
                             Prisma.equals_insensitive (toUpperCase code));
                            (Prisma.col_code3,
                             Prisma.equals_insensitive (toUpperCase code)) ] |} with
        | None => (Throw (not_found code), cacheManager w)
        | Some country =>
            let countryDto := transformToDto country in
            (Return (VCountry countryDto),
             CacheManager.set (cacheManager w) cacheKey (VCountry countryDto)
                              CACHE_TTL)
        end
  end.

(** [getAllCountries].  The operation reads no connectivity gate: it
    queries the store whenever the cache has nothing under its key. *)
Definition getAllCountries (w : World) : outcome Value * CacheManager.Cache :=
  match CacheManager.get (cacheManager w) ALL_COUNTRIES with
  | Some cached => (Return cached, cacheManager w)
  | None =>
      let countries := Prisma.findMany_all (prisma w) in
      let countryDtos := List.map transformToDto countries in
      (Return (VCountries countryDtos),
       CacheManager.set (cacheManager w) ALL_COUNTRIES (VCountries countryDtos)
                        CACHE_TTL)
  end.

(** [invalidateCache]: the three deletions of the [Promise.all]. *)
Definition invalidateCache (w : World) : outcome unit * CacheManager.Cache :=
  (Return tt,
   CacheManager.del
     (CacheManager.del
        (CacheManager.del (cacheManager w) ALL_COUNTRIES)
        CONTINENTS)
     POPULAR_COUNTRIES).

End CountriesService.

(** ** The HTTP handler of [GET /countries] *)

Module CountriesController.

Import JS.

Definition optional (o : option string) : jsval :=
  match o with
  | Some s => JString s
  | None => JUndefined
  end.

(** [getCountries(page = 1, limit = 20, continent?, search?)]: the four
    query parameters the handler binds; any other parameter of the
    request, [region] included, is bound to nothing.  [page] and [limit]
    are the numbers that the parameters are declared to be; a query
    value that reaches the handler as a string is outside this
    definition. *)
Definition getCountries (page limit : option Z) (continent search : option string)
    (w : CountriesService.World) :=
  let page := default 1 page in
  let limit := default 20 limit in
  CountriesService.getCountries
    [("continent", optional continent); ("search", optional search)]
    [("page", JNumber page); ("limit", JNumber limit)]
    w.

(** [getCountryByCode(@Param('code') code)] and [getContinents()]. *)
Definition getCountryByCode (code : string) (w : CountriesService.World) :=
  CountriesService.getCountryByCode code w.

Definition getContinents (localeCompare : string -> string -> comparison)
    (w : CountriesService.World) :=
  CountriesService.getContinents localeCompare w.

End CountriesController.

(** * Vocabulary of the properties *)

Module Props.

Import JS CountriesService.

(** The three keys that [invalidateCache] names. *)
Definition aggregate_keys : list string :=
  [ALL_COUNTRIES; CONTINENTS; POPULAR_COUNTRIES].

(** The records an operation can answer from: the rows of the store
    when it is connected, the fallback table otherwise. *)
Definition dataset (w : World) : list CountryDto :=
  if Prisma.isDbConnected (prisma w)
  then List.map transformToDto (Prisma.country (prisma w))
  else getFallbackCountryData.

(** [c] is, up to case, the 2-letter or the 3-letter code of [r]. *)
Definition code_matches (c : string) (r : CountryDto) : bool :=
  ((toLowerCase (Dto.code r) =? toLowerCase c)%string
   || (toLowerCase (Dto.code3 r) =? toLowerCase c)%string)%bool.


(** What a lookup finds in the dataset once the cache has missed. *)
Definition first_match (c : string) (T : list CountryDto) : option CountryDto :=
  List.find (code_matches c) T.

(** Two objects with the same value at every field. *)
Definition same_fields (o1 o2 : jsobject) : Prop :=
  forall k : string, get_prop k o1 = get_prop k o2.

(** The properties of an object that hold a value, in their order. *)
Definition defined_props (o : jsobject) : jsobject :=
  List.filter (fun kv => is_defined (snd kv)) o.

(** Ascending by display name, names compared as [ORDER BY name] does in
    the store model. *)
Definition ascending_by_name (l : list CountryDto) : Prop :=
  Sorted (fun a b => String.leb (name a) (name b) = true) l.

(** A record with another value in its [region] field. *)
Definition with_region (x : string) (r : CountryDto) : CountryDto :=
  {| code := code r; code3 := code3 r; name := name r;
     officialName := officialName r; capital := capital r;
     continent := continent r; region := x;
     languages := languages r; currencies := currencies r;
     callingCodes := callingCodes r;
     isPopularDestination := isPopularDestination r; flag := flag r;
     latitude := latitude r; longitude := longitude r |}.

(** [localeCompare] orders the given names as their letters do. *)
Definition alphabetical_on (localeCompare : string -> string -> comparison)
    (names : list string) : Prop :=
  forall a b : string,
    List.In a names -> List.In b names -> localeCompare a b = String.compare a b.

(** The continents of the fallback table. *)
Definition fallback_continent_names : list string :=
  ["Asia"; "Europe"; "North America"; "Oceania"].

(** The names on the page an invocation of [getCountries] returns. *)
Definition listed_names (o : option (outcome Value * CacheManager.Cache))
  : option (list string) :=
  match o with
  | Some (Return (VPaginated r), _) => Some (List.map name (data r))
  | _ => None
  end.

(** An object whose properties hold strings, numbers or [undefined]. *)
Definition flat (o : jsobject) : Prop :=
  Forall (fun kv => match snd kv with JObject _ => False | _ => True end) o.

(** The consistency of a page with the request it answers. *)
Definition page_consistent (p : PaginationOptions) (r : PaginatedResponseDto) : Prop :=
  Z.of_nat (List.length (data r)) <= limit p
  /\ meta_page (meta r) = page p
  /\ meta_limit (meta r) = limit p
  /\ 0 <= total (meta r)
  /\ (totalPages (meta r) - 1) * limit p < total (meta r)
     <= totalPages (meta r) * limit p
  /\ hasNext (meta r) = (page p <? totalPages (meta r))
  /\ hasPrev (meta r) = (page p >? 1).

(** What the cache holds under [key], if anything, is a page consistent
    with the request [p].  A cache without that key satisfies this. *)
Definition page_entry_ok (c : CacheManager.Cache) (key : string)
    (p : PaginationOptions) : Prop :=
  forall v : Value,
    CacheManager.get c key = Some v ->
    exists r, v = VPaginated r /\ page_consistent p r.

(** Every page in the cache is consistent with the requests, of positive
    page and limit, whose key it is stored under. *)
Definition pages_consistent (c : CacheManager.Cache) : Prop :=
  forall (filters pagination : jsobject) (p : PaginationOptions),
    as_PaginationOptions pagination = Some p ->
    0 < page p -> 0 < limit p ->
    page_entry_ok c (filtered_key filters pagination) p.

(** The declared type of what a key of the service holds: a list of
    records under [countries:all], continent counts under
    [countries:continents], one record under a per-code key, a page
    under the key of a filtered listing. *)
Definition entry_well_typed (key : string) (v : Value) : Prop :=
  (key = ALL_COUNTRIES -> exists l, v = VCountries l)
  /\ (key = CONTINENTS -> exists l, v = VContinentData l)
  /\ (forall K : string, key = COUNTRY_BY_CODE ++ K -> exists c, v = VCountry c)
  /\ (forall filters pagination : jsobject,
         key = filtered_key filters pagination -> exists r, v = VPaginated r).

Definition cache_well_typed (c : CacheManager.Cache) : Prop :=
  forall (key : string) (v : Value),
    CacheManager.get c key = Some v -> entry_well_typed key v.

(** Every entry of the cache was stored with the time-to-live of the
    service. *)
Definition ttl_uniform (c : CacheManager.Cache) : Prop :=
  forall (key : string) (e : CacheManager.Entry),
    c !! key = Some e -> CacheManager.entry_ttl e = CACHE_TTL.

(** The listing that the pages of a request are cut from: the rows of
    the store that pass the filters, in ascending order of name, when the
    store is connected; the records of the fallback table that pass the
    filters, in the order of the table, otherwise. *)
Definition matching_rows (w : World) (f : CountryFilters) : list CountryDto :=
  if Prisma.isDbConnected (prisma w)
  then List.map transformToDto
         (Ordered.sort Prisma.name_asc
            (List.filter (Prisma.row_matches (where_clause f))
                         (Prisma.country (prisma w))))
  else List.filter (Prisma.row_matches (where_clause f)) getFallbackCountryData.

(** The pagination object [{ page: k, limit }]. *)
Definition page_request (k : nat) (limit : Z) : jsobject :=
  [("page", JNumber (Z.of_nat k)); ("limit", JNumber limit)].

(** The records on the page an invocation of [getCountries] returns. *)
Definition listed (o : option (outcome Value * CacheManager.Cache))
  : list CountryDto :=
  match o with
  | Some (Return (VPaginated r), _) => data r
  | _ => []
  end.

(** Two values of one filter field that are both falsy, or both truthy
    and equal up to case. *)
Definition same_filter (a b : option string) : Prop :=
  (truthy a = false /\ truthy b = false)
  \/ (truthy a = true /\ truthy b = true
      /\ toLowerCase (default EmptyString a) = toLowerCase (default EmptyString b)).

Definition same_filters (f f' : CountryFilters) : Prop :=
  same_filter (f_continent f) (f_continent f')
  /\ same_filter (f_region f) (f_region f')
  /\ same_filter (f_search f) (f_search f').

(** A string of ASCII characters, and a dataset whose codes are such
    strings: where the case conversions are the language's. *)
Fixpoint ascii_string (s : string) : bool :=
  match s with
  | EmptyString => true
  | String c s' => ((nat_of_ascii c <? 128)%nat && ascii_string s')%bool
  end.

Definition ascii_codes (T : list CountryDto) : Prop :=
  Forall (fun r => ascii_string (Dto.code r) = true
                   /\ ascii_string (Dto.code3 r) = true) T.

End Props.

Import Props.

(** * Sample requests and worlds *)

Module Samples.

Import JS CountriesService.

Definition no_filters : jsobject := [].

Definition first_page : jsobject := [("page", JNumber 1); ("limit", JNumber 20)].

Definition empty_page : PaginatedResponseDto :=
  {| success := true;
     message := "Countries retrieved successfully";
     timestamp := "2024-05-01T08:00:00.000Z";
     meta := {| meta_page := 1; meta_limit := 20; total := 0; totalPages := 0;
                hasNext := false; hasPrev := false |};
     data := [] |}.


Definition nigeria : CountryDto :=
  {| code := "NG"; code3 := "NGA"; name := "Nigeria";
     officialName := "Federal Republic of Nigeria"; capital := "Abuja";
     continent := "Africa"; region := "Western Africa";
     languages := ["English"]; currencies := ["NGN"];
     callingCodes := ["+234"]; isPopularDestination := false;
     flag := "NG"; latitude := 9.082; longitude := 8.6753 |}.

Definition entry (v : Value) : CacheManager.Entry :=
  {| CacheManager.entry_value := v; CacheManager.entry_ttl := CACHE_TTL |}.

(** The store is down and nothing is cached. *)
Definition offline : World :=
  {| prisma := {| Prisma.connected := false; Prisma.country := [] |};
     cacheManager := ∅;
     now := "2024-05-02T08:00:00.000Z" |}.

(** The store is down; a listing was cached while it was up. *)
Definition offline_with_cached_page : World :=
  {| prisma := {| Prisma.connected := false; Prisma.country := [] |};
     cacheManager := {[ filtered_key no_filters first_page := entry (VPaginated empty_page) ]};
     now := "2024-05-02T08:00:00.000Z" |}.

(** The store is down; a record of the store was cached while it was up. *)
Definition offline_with_cached_country : World :=
  {| prisma := {| Prisma.connected := false; Prisma.country := [] |};
     cacheManager := {[ COUNTRY_BY_CODE ++ "NG" := entry (VCountry nigeria) ]};
     now := "2024-05-02T08:00:00.000Z" |}.

(** The store is up and holds the rows of the fallback table. *)
Definition online : World :=
  {| prisma := {| Prisma.connected := true;
                  Prisma.country := getFallbackCountryData |};
     cacheManager := ∅;
     now := "2024-05-02T08:00:00.000Z" |}.

(** The store is up; a listing is cached. *)
Definition online_with_cached_page : World :=
  {| prisma := {| Prisma.connected := true;
                  Prisma.country := getFallbackCountryData |};
     cacheManager := {[ filtered_key no_filters first_page := entry (VPaginated empty_page) ]};
     now := "2024-05-02T08:00:00.000Z" |}.


(** The store is up and holds one row that the fallback table lacks. *)
Definition online_nigeria : World :=
  {| prisma := {| Prisma.connected := true; Prisma.country := [nigeria] |};
     cacheManager := ∅;
     now := "2024-05-03T08:00:00.000Z" |}.

End Samples.

(** * Auxiliary facts *)

Example stringify_example :
  JS.stringify_text
    (JS.JObject [("filters", JS.JObject [("continent", JS.JString "Europe");
                                         ("search", JS.JUndefined)]);
                 ("pagination", JS.JObject [("page", JS.JNumber 1);
                                            ("limit", JS.JNumber 20)])])
  = JS.map_chars (fun c => if Ascii.eqb c "'" then JS.dquote else c)
      "{'filters':{'continent':'Europe'},'pagination':{'page':1,'limit':20}}".
Proof. reflexivity. Qed.


(** ** Case conversion *)

Lemma lower_upper_char (c : ascii) :
  JS.lower_char (JS.upper_char c) = JS.lower_char c.
Proof. destruct c as [[] [] [] [] [] [] [] []]; reflexivity. Qed.

Lemma toLowerCase_toUpperCase (s : string) :
  JS.toLowerCase (JS.toUpperCase s) = JS.toLowerCase s.
Proof.
  induction s as [| c s IH]; [reflexivity |].
  unfold JS.toLowerCase, JS.toUpperCase in *. simpl.
  rewrite lower_upper_char, IH. reflexivity.
Qed.

(** ** Rounding up *)

Lemma Math_ceil_div_bounds (a b : Z) :
  0 < b ->
  (JS.Math_ceil_div a b - 1) * b < a <= JS.Math_ceil_div a b * b.
Proof.
  intros Hb. unfold JS.Math_ceil_div.
  set (x := (inject_Z a / inject_Z b)%Q).
  assert (HbQ : (0 < inject_Z b)%Q)
    by (change 0%Q with (inject_Z 0); rewrite <- Zlt_Qlt; exact Hb).
  assert (Hx : (x * inject_Z b == inject_Z a)%Q).
  { unfold x. rewrite Qmult_comm. apply Qmult_div_r.
    intros H. rewrite H in HbQ. inversion HbQ. }
  split.
  - rewrite Zlt_Qlt, inject_Z_mult, <- Hx.
    apply Qmult_lt_r; [exact HbQ | apply Qceiling_lt].
  - rewrite Zle_Qle, inject_Z_mult, <- Hx.
    apply Qmult_le_r; [exact HbQ | apply Qle_ceiling].
Qed.

(** ** Slices *)

Lemma slice_length_le {A} (a : list A) (start finish : Z) :
  0 <= start <= finish ->
  Z.of_nat (List.length (JS.slice a start finish)) <= finish - start.
Proof.
  intros H. unfold JS.slice, JS.relative_index.
  rewrite length_firstn.
  destruct (Z.ltb_spec start 0), (Z.ltb_spec finish 0); lia.
Qed.

(** ** Stable insertion sort *)

Section SortFacts.
Context {A : Type} (le : A -> A -> bool).

Lemma insert_perm (x : A) (l : list A) :
  Permutation (Ordered.insert le x l) (x :: l).
Proof.
  induction l as [| y l IH]; simpl; [reflexivity |].
  destruct (le x y); [reflexivity |].
  rewrite IH. apply perm_swap.
Qed.

Lemma sort_perm (l : list A) : Permutation (Ordered.sort le l) l.
Proof.
  induction l as [| x l IH]; simpl; [reflexivity |].
  unfold Ordered.sort in *. simpl. rewrite insert_perm, IH. reflexivity.
Qed.

Lemma sort_In (x : A) (l : list A) : List.In x (Ordered.sort le l) <-> List.In x l.
Proof.
  split; apply Permutation_in; [| symmetry]; apply sort_perm.
Qed.

Hypothesis le_total : forall a b, le a b = true \/ le b a = true.

Lemma insert_sorted (x : A) (l : list A) :
  Sorted (fun a b => le a b = true) l ->
  Sorted (fun a b => le a b = true) (Ordered.insert le x l).
Proof.
  induction l as [| y l IH]; intros Hs; simpl.
  - repeat constructor.
  - destruct (le x y) eqn:Hxy.
    + constructor; [exact Hs | constructor; exact Hxy].
    + inversion Hs as [| ? ? Hs' Hhd]; subst.
      constructor; [apply IH; exact Hs' |].
      destruct l as [| z l]; simpl.
      * constructor. destruct (le_total x y); congruence.
      * inversion Hhd; subst. destruct (le x z); constructor;
          [destruct (le_total x y); congruence | assumption].
Qed.

Lemma sort_sorted (l : list A) :
  Sorted (fun a b => le a b = true) (Ordered.sort le l).
Proof.
  induction l as [| x l IH]; simpl; [constructor |].
  apply insert_sorted. exact IH.
Qed.

End SortFacts.

Lemma Sorted_skipn {A} (R : A -> A -> Prop) (n : nat) (l : list A) :
  Sorted R l -> Sorted R (skipn n l).
Proof.
  revert l. induction n as [| n IH]; intros l Hs; [exact Hs |].
  destruct l as [| x l]; [exact Hs |]. simpl. apply IH.
  inversion Hs; assumption.
Qed.

Lemma Sorted_firstn {A} (R : A -> A -> Prop) (n : nat) (l : list A) :
  Sorted R l -> Sorted R (firstn n l).
Proof.
  revert l. induction n as [| n IH]; intros l Hs; [constructor |].
  destruct l as [| x l]; [constructor |]. simpl.
  inversion Hs as [| ? ? Hs' Hhd]; subst.
  constructor; [apply IH; exact Hs' |].
  destruct n; [constructor |].
  destruct l; [constructor |]. simpl. inversion Hhd; subst. constructor. assumption.
Qed.

(** ** The cache *)

Lemma get_set (c : CacheManager.Cache) (k k' : string) (v : Value) (ttl : Z) :
  CacheManager.get (CacheManager.set c k v ttl) k'
  = if decide (k = k') then Some v else CacheManager.get c k'.
Proof.
  unfold CacheManager.get, CacheManager.set. rewrite lookup_insert.
  destruct (decide (k = k')); reflexivity.
Qed.

Lemma get_del (c : CacheManager.Cache) (k k' : string) (v : Value) :
  CacheManager.get (CacheManager.del c k) k' = Some v ->
  CacheManager.get c k' = Some v.
Proof.
  unfold CacheManager.get, CacheManager.del. rewrite lookup_delete.
  destruct (decide (k = k')); [discriminate | auto].
Qed.

(** ** [JSON.stringify] can be read back *)

Section Reading.

Import JS.

#[local] Arguments String.append !_ _ / : simpl nomatch.

Lemma unquote_quote_char (c : ascii) (r : string) :
  unquote_char (quote_char c ++ r) = Some (c, r).
Proof. destruct c as [[] [] [] [] [] [] [] []]; reflexivity. Qed.

Lemma unquote_dquote (r : string) : unquote_char (String dquote r) = None.
Proof. reflexivity. Qed.

Lemma append_assoc (a b c : string) : (a ++ b) ++ c = a ++ (b ++ c).
Proof. induction a; simpl; [| rewrite IHa]; reflexivity. Qed.

Lemma quote_chars_inj (s s' r r' : string) :
  quote_chars s ++ String dquote r = quote_chars s' ++ String dquote r' ->
  s = s' /\ r = r'.
Proof.
  revert s'. induction s as [| c s IH]; intros [| c' s'] H;
    cbn [quote_chars String.append] in H.
  - injection H as H. auto.
  - exfalso. apply (f_equal unquote_char) in H.
    rewrite append_assoc, unquote_quote_char in H. discriminate H.
  - exfalso. apply (f_equal unquote_char) in H.
    rewrite append_assoc, unquote_quote_char in H. discriminate H.
  - pose proof (f_equal unquote_char H) as Hc.
    rewrite !append_assoc, !unquote_quote_char in Hc.
    injection Hc as -> Hrest.
    destruct (IH _ Hrest) as [-> ->]. auto.
Qed.

Lemma quote_inj (s s' r r' : string) :
  quote s ++ r = quote s' ++ r' -> s = s' /\ r = r'.
Proof.
  unfold quote. simpl. intros H. injection H as H.
  rewrite !append_assoc in H. simpl in H. apply quote_chars_inj in H. exact H.
Qed.

Lemma uint_string_inj (u u' : Decimal.uint) (r r' : string) :
  NilEmpty.string_of_uint u ++ r = NilEmpty.string_of_uint u' ++ r' ->
  no_digit_head r -> no_digit_head r' ->
  u = u' /\ r = r'.
Proof.
  revert u'. induction u as [| u IH | u IH | u IH | u IH | u IH | u IH | u IH
                              | u IH | u IH | u IH];
    intros [| u' | u' | u' | u' | u' | u' | u' | u' | u' | u'] H Hr Hr';
    simpl in H;
    try discriminate H;
    try (split; [reflexivity | exact H]);
    try (exfalso; subst; simpl in *; discriminate);
    injection H as H; destruct (IH _ H Hr Hr') as [-> ->]; auto.
Qed.

Lemma uint_string_head (u : Decimal.uint) :
  u <> Decimal.Nil ->
  exists c s, NilEmpty.string_of_uint u = String c s /\ is_digit c = true.
Proof. destruct u; intros Hu; try congruence; simpl; eauto. Qed.

Lemma to_int_nonnil (n : Z) :
  match Z.to_int n with
  | Decimal.Pos u | Decimal.Neg u => u <> Decimal.Nil
  end.
Proof.
  destruct n; simpl; try apply Unsigned.to_uint_nonnil. discriminate.
Qed.

Lemma NilZero_uint (u : Decimal.uint) :
  u <> Decimal.Nil -> NilZero.string_of_uint u = NilEmpty.string_of_uint u.
Proof. destruct u; intros Hu; congruence || reflexivity. Qed.

Lemma number_to_string_head (n : Z) :
  exists c s, number_to_string n = String c s
              /\ (is_digit c = true \/ c = "-"%char).
Proof.
  unfold number_to_string, NilZero.string_of_int.
  pose proof (to_int_nonnil n) as Hn.
  destruct (Z.to_int n) as [u | u]; rewrite NilZero_uint by exact Hn.
  - destruct (uint_string_head u Hn) as (c & s & -> & Hc). eauto.
  - eauto.
Qed.

Lemma number_to_string_inj (n n' : Z) (r r' : string) :
  number_to_string n ++ r = number_to_string n' ++ r' ->
  no_digit_head r -> no_digit_head r' ->
  n = n' /\ r = r'.
Proof.
  unfold number_to_string, NilZero.string_of_int. intros H Hr Hr'.
  pose proof (to_int_nonnil n) as Hn. pose proof (to_int_nonnil n') as Hn'.
  destruct (Z.to_int n) as [u | u] eqn:En, (Z.to_int n') as [u' | u'] eqn:En';
    rewrite (NilZero_uint u Hn), (NilZero_uint u' Hn') in H.
  - destruct (uint_string_inj _ _ _ _ H Hr Hr') as [-> ->].
    split; [apply DecimalZ.to_int_inj; congruence | reflexivity].
  - exfalso. destruct (uint_string_head u Hn) as (c & s & Hs & Hc).
    rewrite Hs in H. simpl in H. injection H as -> _. discriminate Hc.
  - exfalso. destruct (uint_string_head u' Hn') as (c & s & Hs & Hc).
    rewrite Hs in H. simpl in H. injection H as <- _. discriminate Hc.
  - simpl in H. injection H as H.
    destruct (uint_string_inj _ _ _ _ H Hr Hr') as [-> ->].
    split; [apply DecimalZ.to_int_inj; congruence | reflexivity].
Qed.

Lemma normalize_object (o : jsobject) : normalize (JObject o) = JObject (norm_props o).
Proof. reflexivity. Qed.

Lemma stringify_object (o : jsobject) :
  stringify (JObject o) = Some ("{" ++ join_comma (members o) ++ "}").
Proof. reflexivity. Qed.

Lemma stringify_defined (v : jsval) :
  is_defined v = true -> exists s, stringify v = Some s.
Proof. destruct v; simpl; intros H; try discriminate H; eauto. Qed.

Lemma stringify_some_defined (v : jsval) (s : string) :
  stringify v = Some s -> is_defined v = true.
Proof. destruct v; simpl; intros H; congruence. Qed.

Lemma join_comma_cons (m : string) (ms : list string) (t : string) :
  join_comma (m :: ms) ++ t = m ++ more_members ms t.
Proof.
  destruct ms as [| m' ms]; simpl; [reflexivity |].
  rewrite !append_assoc. reflexivity.
Qed.

Lemma quote_head (k : string) : exists s, quote k = String dquote s.
Proof. unfold quote. eauto. Qed.

(** The first character tells the kind of a serialised value. *)
Lemma stringify_head (v : jsval) (s : string) :
  stringify v = Some s ->
  match v with
  | JUndefined => False
  | JString _ => exists t, s = String dquote t
  | JNumber _ => exists c t, s = String c t /\ (is_digit c = true \/ c = "-"%char)
  | JObject _ => exists t, s = String "{" t
  end.
Proof.
  destruct v; simpl; intros H; try discriminate H; injection H as <-.
  - unfold quote. eauto.
  - apply number_to_string_head.
  - eauto.
Qed.

Lemma more_members_no_digit (ms : list string) (r : string) :
  no_digit_head (more_members ms ("}" ++ r)).
Proof. destruct ms; reflexivity. Qed.

Lemma members_nil_norm (o : jsobject) : members o = [] -> norm_props o = [].
Proof.
  induction o as [| [k x] o IH]; [reflexivity |]. simpl.
  destruct x; simpl; try discriminate; exact IH.
Qed.

Lemma members_cons_some (k : string) (x : jsval) (o : jsobject) (sx : string) :
  stringify x = Some sx ->
  members ((k, x) :: o) = (quote k ++ ":" ++ sx) :: members o
  /\ norm_props ((k, x) :: o) = (k, normalize x) :: norm_props o.
Proof.
  intros Ex. cbn [members norm_props]. rewrite Ex.
  rewrite (stringify_some_defined _ _ Ex). auto.
Qed.

Lemma members_cons_none (k : string) (x : jsval) (o : jsobject) :
  stringify x = None ->
  members ((k, x) :: o) = members o
  /\ norm_props ((k, x) :: o) = norm_props o.
Proof.
  intros Ex. cbn [members norm_props]. rewrite Ex.
  destruct x; try discriminate Ex. auto.
Qed.

Lemma member_not_brace (k sx t r : string) :
  "}" ++ r <> (quote k ++ ":" ++ sx) ++ t.
Proof. unfold quote. simpl. discriminate. Qed.

Lemma members_unique_reading (o : jsobject) :
  Forall (fun kv => unique_reading (snd kv)) o ->
  forall (o' : jsobject) (r r' : string),
    join_comma (members o) ++ "}" ++ r = join_comma (members o') ++ "}" ++ r' ->
    norm_props o = norm_props o' /\ r = r'.
Proof.
  induction 1 as [| [k x] o Hx Ho IH].
  - (* no member on the left *)
    induction o' as [| [k' x'] o' IH']; intros r r' H.
    + simpl in H. injection H as H. auto.
    + destruct (stringify x') as [sx' |] eqn:Ex'.
      * exfalso. destruct (members_cons_some k' x' o' sx' Ex') as [Em _].
        rewrite Em, join_comma_cons in H.
        exact (member_not_brace _ _ _ _ H).
      * destruct (members_cons_none k' x' o' Ex') as [Em En].
        rewrite Em in H. rewrite En. apply IH'. exact H.
  - cbn [snd] in Hx.
    destruct (stringify x) as [sx |] eqn:Ex.
    + destruct (members_cons_some k x o sx Ex) as [Em En]. rewrite Em, En.
      induction o' as [| [k' x'] o' IH']; intros r r' H.
      * exfalso. rewrite join_comma_cons in H. symmetry in H.
        exact (member_not_brace _ _ _ _ H).
      * destruct (stringify x') as [sx' |] eqn:Ex'.
        -- destruct (members_cons_some k' x' o' sx' Ex') as [Em' En'].
           rewrite Em' in H. rewrite En'.
           rewrite !join_comma_cons in H.
           rewrite !append_assoc in H.
           apply quote_inj in H as [-> H]. simpl in H. injection H as H.
           destruct (Hx x' sx sx' _ _ Ex Ex' H
                        (more_members_no_digit _ _) (more_members_no_digit _ _))
             as [Hnx Hmore].
           rewrite Hnx.
           assert (Hrest : join_comma (members o) ++ "}" ++ r
                           = join_comma (members o') ++ "}" ++ r').
           { destruct (members o) as [| m ms], (members o') as [| m' ms'];
               simpl in Hmore; try discriminate Hmore.
             - exact Hmore.
             - injection Hmore as Hmore. exact Hmore. }
           destruct (IH o' r r' Hrest) as [-> ->]. auto.
        -- destruct (members_cons_none k' x' o' Ex') as [Em' En'].
           rewrite Em' in H. rewrite En'. apply IH'. exact H.
    + destruct (members_cons_none k x o Ex) as [Em En]. rewrite Em, En.
      exact IH.
Qed.

Lemma stringify_unique_reading (v : jsval) : unique_reading v.
Proof.
  induction v as [| s0 | n | o Ho] using jsval_ind';
    intros v' s s' r r' Es Es' H Hr Hr'.
  - discriminate Es.
  - simpl in Es. injection Es as <-.
    pose proof (stringify_head v' s' Es') as Hh.
    destruct v' as [| s1 | n1 | o1]; [destruct Hh | | |].
    + simpl in Es'. injection Es' as <-.
      apply quote_inj in H as [-> ->]. auto.
    + exfalso. destruct Hh as (c & t & -> & Hc). unfold quote in H. simpl in H.
      injection H as <- _. destruct Hc as [Hc | Hc]; discriminate Hc.
    + exfalso. destruct Hh as (t & ->). unfold quote in H. simpl in H.
      injection H as H _. discriminate H.
  - simpl in Es. injection Es as <-.
    destruct (number_to_string_head n) as (c & t & Hs & Hc).
    pose proof (stringify_head v' s' Es') as Hh.
    destruct v' as [| s1 | n1 | o1]; [destruct Hh | | |].
    + exfalso. destruct Hh as (t' & ->). rewrite Hs in H. simpl in H.
      injection H as -> _. destruct Hc as [Hc | Hc]; discriminate Hc.
    + simpl in Es'. injection Es' as <-.
      apply number_to_string_inj in H as [-> ->]; auto.
    + exfalso. destruct Hh as (t' & ->). rewrite Hs in H. simpl in H.
      injection H as -> _. destruct Hc as [Hc | Hc]; discriminate Hc.
  - rewrite stringify_object in Es. injection Es as <-.
    pose proof (stringify_head v' s' Es') as Hh.
    destruct v' as [| s1 | n1 | o1]; [destruct Hh | | |].
    + exfalso. destruct Hh as (t' & ->). simpl in H. injection H as H _.
      discriminate H.
    + exfalso. destruct Hh as (c & t' & -> & Hc). simpl in H.
      injection H as <- _. destruct Hc as [Hc | Hc]; discriminate Hc.
    + rewrite stringify_object in Es'. injection Es' as <-.
      simpl in H. injection H as H. rewrite !append_assoc in H.
      destruct (members_unique_reading o Ho o1 r r' H) as [Hn ->].
      rewrite !normalize_object, Hn. auto.
Qed.

Lemma is_defined_normalize (v : jsval) : is_defined (normalize v) = is_defined v.
Proof. destruct v; reflexivity. Qed.

Lemma stringify_normalize (v : jsval) : stringify (normalize v) = stringify v.
Proof.
  induction v as [| s0 | n | o Ho] using jsval_ind'; try reflexivity.
  rewrite normalize_object, !stringify_object.
  assert (Hm : members (norm_props o) = members o);
    [| rewrite Hm; reflexivity].
  induction Ho as [| [k x] o Hx Ho IH]; [reflexivity |].
  cbn [snd] in Hx. cbn [norm_props members].
  destruct (is_defined x) eqn:Hd.
  - cbn [members]. rewrite Hx, IH. reflexivity.
  - destruct x; try discriminate Hd. exact IH.
Qed.

Lemma stringify_inj (v v' : jsval) (s : string) :
  stringify v = Some s -> stringify v' = Some s -> normalize v = normalize v'.
Proof.
  intros Es Es'.
  destruct (stringify_unique_reading v v' s s EmptyString EmptyString Es Es'
              eq_refl I I) as [H _].
  exact H.
Qed.


(** Equal keys come from equal requests. *)

Import CountriesService.

Lemma filtered_key_inj (f p f' p' : jsobject) :
  filtered_key f p = filtered_key f' p'
  <-> normalize (JObject f) = normalize (JObject f')
      /\ normalize (JObject p) = normalize (JObject p').
Proof.
  unfold filtered_key, stringify_text. split.
  - intros H. apply String.app_inj in H.
    rewrite (stringify_object [("filters", JObject f); ("pagination", JObject p)]) in H.
    rewrite (stringify_object [("filters", JObject f'); ("pagination", JObject p')]) in H.
    pose proof (stringify_inj
                  (JObject [("filters", JObject f); ("pagination", JObject p)])
                  (JObject [("filters", JObject f'); ("pagination", JObject p')])
                  _ (stringify_object _)) as Hn.
    rewrite stringify_object in Hn. rewrite H in Hn. specialize (Hn eq_refl).
    rewrite !normalize_object in Hn. cbn [norm_props is_defined] in Hn.
    split; congruence.
  - intros [Hf Hp].
    rewrite <- (stringify_normalize
                  (JObject [("filters", JObject f); ("pagination", JObject p)])).
    rewrite <- (stringify_normalize
                  (JObject [("filters", JObject f'); ("pagination", JObject p')])).
    rewrite !normalize_object. cbn [norm_props is_defined].
    rewrite Hf, Hp. reflexivity.
Qed.

Lemma get_prop_norm (k : string) (o : jsobject) :
  is_defined (get_prop k o) = true ->
  get_prop k (norm_props o) = normalize (get_prop k o).
Proof.
  induction o as [| [k' x] o IH]; [discriminate |].
  cbn [get_prop norm_props]. intros Hd.
  destruct (String.eqb_spec k' k) as [-> | Hk].
  - rewrite Hd. cbn [get_prop]. rewrite String.eqb_refl. reflexivity.
  - destruct (is_defined x); [| exact (IH Hd)].
    cbn [get_prop]. destruct (String.eqb_spec k' k); [contradiction |].
    exact (IH Hd).
Qed.

Lemma filtered_key_pagination (f p f' p' : jsobject) (P P' : PaginationOptions) :
  filtered_key f p = filtered_key f' p' ->
  as_PaginationOptions p = Some P ->
  as_PaginationOptions p' = Some P' ->
  P = P'.
Proof.
  intros Hkey HP HP'. apply filtered_key_inj in Hkey as [_ Hn].
  rewrite !normalize_object in Hn. injection Hn as Hn.
  unfold as_PaginationOptions in HP, HP'.
  destruct (get_prop "page" p) as [| | n |] eqn:Epage; try discriminate HP.
  destruct (get_prop "limit" p) as [| | l |] eqn:Elimit; try discriminate HP.
  destruct (get_prop "page" p') as [| | n' |] eqn:Epage'; try discriminate HP'.
  destruct (get_prop "limit" p') as [| | l' |] eqn:Elimit'; try discriminate HP'.
  injection HP as <-. injection HP' as <-.
  pose proof (get_prop_norm "page" p) as H1. rewrite Epage in H1.
  pose proof (get_prop_norm "page" p') as H1'. rewrite Epage' in H1'.
  pose proof (get_prop_norm "limit" p) as H2. rewrite Elimit in H2.
  pose proof (get_prop_norm "limit" p') as H2'. rewrite Elimit' in H2'.
  rewrite Hn in H1, H2. rewrite (H1' eq_refl) in H1. rewrite (H2' eq_refl) in H2.
  specialize (H1 eq_refl). specialize (H2 eq_refl).
  simpl in H1, H2. congruence.
Qed.

End Reading.

(** * Properties *)

(** ** Cache invalidation *)

Section Invalidation.

Import CountriesService.

Lemma code_key_not_aggregate (code : string) :
  bool_decide (COUNTRY_BY_CODE ++ JS.toUpperCase code ∈ aggregate_keys) = false.
Proof.
  apply bool_decide_eq_false. unfold aggregate_keys.
  rewrite !elem_of_cons, elem_of_nil.
  cbv [COUNTRY_BY_CODE ALL_COUNTRIES CONTINENTS POPULAR_COUNTRIES].
  simpl. intros [H | [H | [H | []]]]; discriminate H.
Qed.

Lemma filtered_key_not_aggregate (filters pagination : JS.jsobject) :
  bool_decide (filtered_key filters pagination ∈ aggregate_keys) = false.
Proof.
  apply bool_decide_eq_false. unfold aggregate_keys.
  rewrite !elem_of_cons, elem_of_nil.
  cbv [filtered_key ALL_COUNTRIES CONTINENTS POPULAR_COUNTRIES].
  simpl. intros [H | [H | [H | []]]]; discriminate H.
Qed.

(** C9.  [invalidateCache] succeeds and removes exactly the three
    aggregate keys [countries:all], [countries:continents] and
    [countries:popular]: afterwards a key is absent if it is one of the
    three and holds what it held before otherwise.  In particular every
    per-code key and every per-filter key keeps its entry. *)
Theorem invalidateCache_deletes_exactly_aggregate_keys :
  forall (w : World),
    fst (invalidateCache w) = Return tt
    /\ (forall key : string,
          snd (invalidateCache w) !! key
          = if bool_decide (key ∈ aggregate_keys) then None
            else cacheManager w !! key)
    /\ (forall code : string,
          snd (invalidateCache w) !! (COUNTRY_BY_CODE ++ JS.toUpperCase code)
          = cacheManager w !! (COUNTRY_BY_CODE ++ JS.toUpperCase code))
    /\ (forall filters pagination : JS.jsobject,
          snd (invalidateCache w) !! filtered_key filters pagination
          = cacheManager w !! filtered_key filters pagination).
Proof.
  intros w.
  assert (Hkey : forall key : string,
             snd (invalidateCache w) !! key
             = if bool_decide (key ∈ aggregate_keys) then None
               else cacheManager w !! key).
  { intros key. unfold invalidateCache, CacheManager.del, aggregate_keys. simpl.
    case_bool_decide as Hin.
    - rewrite !elem_of_cons, elem_of_nil in Hin.
      destruct Hin as [-> | [-> | [-> | []]]].
      + rewrite !lookup_delete_ne by discriminate. apply lookup_delete_eq.
      + rewrite lookup_delete_ne by discriminate. apply lookup_delete_eq.
      + apply lookup_delete_eq.
    - rewrite !elem_of_cons, elem_of_nil in Hin.
      rewrite !lookup_delete_ne; [reflexivity | | | ]; intros <-; tauto. }
  split; [reflexivity |]. split; [exact Hkey |]. split.
  - intros code. rewrite Hkey, code_key_not_aggregate. reflexivity.
  - intros filters pagination.
    rewrite Hkey, filtered_key_not_aggregate. reflexivity.
Qed.

End Invalidation.

(** ** The read path of [getCountries] *)

Section Listing.

Import JS CountriesService.

(** C1, as stated, fails: with the store down, [getCountries] does not
    return the page the cache holds under the key of the request. *)
Lemma getCountries_not_cache_first :
  ~ (forall (filters pagination : jsobject) (w : World) f p v,
        as_CountryFilters filters = Some f ->
        as_PaginationOptions pagination = Some p ->
        CacheManager.get (cacheManager w) (filtered_key filters pagination) = Some v ->
        getCountries filters pagination w = Some (Return v, cacheManager w)).
Proof.
  intros H.
  specialize (H Samples.no_filters Samples.first_page
                Samples.offline_with_cached_page _ _ _ eq_refl eq_refl eq_refl).
  apply (f_equal (fun o => match o with
                           | Some (Return (VPaginated r), _) => total (meta r)
                           | _ => -1
                           end)) in H.
  vm_compute in H. discriminate H.
Qed.

(** C1, amended.  [getCountries] reads the connectivity gate first.
    With the store down it returns the fallback page whatever the cache
    holds, and leaves the cache alone.  With the store up, a value cached
    under the key of the request is returned unchanged, timestamp
    included, and the cache is left alone. *)
Theorem getCountries_gate_then_cache :
  forall (filters pagination : jsobject) (w : World) f p,
    as_CountryFilters filters = Some f ->
    as_PaginationOptions pagination = Some p ->
    (Prisma.isDbConnected (prisma w) = false ->
     getCountries filters pagination w
     = Some (Return (VPaginated (getFallbackCountries f p (now w))), cacheManager w))
    /\ (Prisma.isDbConnected (prisma w) = true ->
        forall v,
          CacheManager.get (cacheManager w) (filtered_key filters pagination) = Some v ->
          getCountries filters pagination w = Some (Return v, cacheManager w)).
Proof.
  intros filters pagination w f p Hf Hp. unfold getCountries.
  rewrite Hf, Hp. simpl. split.
  - intros ->. reflexivity.
  - intros -> v ->. reflexivity.
Qed.

Lemma getCountries_gate_then_cache_witness :
  getCountries Samples.no_filters Samples.first_page Samples.online_with_cached_page
  = Some (Return (VPaginated Samples.empty_page),
          cacheManager Samples.online_with_cached_page)
  /\ getCountries Samples.no_filters Samples.first_page Samples.offline_with_cached_page
     = Some (Return (VPaginated
                       (getFallbackCountries
                          {| f_continent := None; f_region := None; f_search := None |}
                          {| page := 1; limit := 20 |}
                          (now Samples.offline_with_cached_page))),
             cacheManager Samples.offline_with_cached_page).
Proof.
  split.
  - apply (proj2 (getCountries_gate_then_cache
                    Samples.no_filters Samples.first_page
                    Samples.online_with_cached_page _ _ eq_refl eq_refl));
      reflexivity.
  - apply (proj1 (getCountries_gate_then_cache
                    Samples.no_filters Samples.first_page
                    Samples.offline_with_cached_page _ _ eq_refl eq_refl));
      reflexivity.
Defined.

Lemma findMany_in_range (db : Prisma.PrismaService) (wh : Prisma.WhereInput)
    (skip take : Z) :
  0 <= skip -> 0 <= take ->
  Prisma.findMany db wh skip take
  = Some (firstn (Z.to_nat take)
            (skipn (Z.to_nat skip)
               (Ordered.sort Prisma.name_asc
                  (List.filter (Prisma.row_matches wh) (Prisma.country db))))).
Proof.
  intros Hs Ht. unfold Prisma.findMany.
  destruct (Z.ltb_spec skip 0); [lia |].
  destruct (Z.ltb_spec take 0); [lia |]. reflexivity.
Qed.

Lemma fallback_page_consistent (f : CountryFilters) (p : PaginationOptions)
    (time : string) :
  0 < page p -> 0 < limit p ->
  page_consistent p (getFallbackCountries f p time).
Proof.
  intros Hpage Hlimit. unfold page_consistent, getFallbackCountries.
  cbv zeta. cbn [data meta meta_page meta_limit total totalPages hasNext hasPrev].
  split; [| split; [reflexivity | split; [reflexivity | split; [lia | split;
    [ apply Math_ceil_div_bounds; exact Hlimit | split; reflexivity ]]]]].
  match goal with
  | |- Z.of_nat (List.length (slice ?a ?s ?e)) <= _ =>
      pose proof (slice_length_le a s e) as Hlen
  end.
  assert (0 <= (page p - 1) * limit p) by nia. lia.
Qed.

Lemma page_entry_ok_miss (c : CacheManager.Cache) (key : string)
    (p : PaginationOptions) :
  CacheManager.get c key = None -> page_entry_ok c key p.
Proof. intros Hmiss v Hget. congruence. Qed.

Lemma pages_consistent_empty : pages_consistent ∅.
Proof. intros filters pagination p _ _ _. apply page_entry_ok_miss. reflexivity. Qed.

(** C5.  For a request with positive page and limit, the page that
    [getCountries] returns holds at most [limit] records, has
    [totalPages] equal to [total / limit] rounded up (the least [n] with
    [total <= n * limit]), [hasNext = (page < totalPages)] and
    [hasPrev = (page > 1)]: on the fallback path, on the store path, and
    when the page comes out of the cache, provided the cached page is
    itself consistent with the request.  That proviso holds along every
    run from an empty cache: the call keeps every cached page consistent
    with the requests whose key it is stored under. *)
Theorem getCountries_page_consistent :
  forall (filters pagination : jsobject) (w : World) f p,
    as_CountryFilters filters = Some f ->
    as_PaginationOptions pagination = Some p ->
    0 < page p -> 0 < limit p ->
    Prisma.isDbConnected (prisma w) = false
    \/ page_entry_ok (cacheManager w) (filtered_key filters pagination) p ->
    exists r c,
      getCountries filters pagination w = Some (Return (VPaginated r), c)
      /\ page_consistent p r
      /\ (pages_consistent (cacheManager w) -> pages_consistent c).
Proof.
  intros filters pagination w f p Hf Hp Hpage Hlimit Hpath.
  unfold getCountries. rewrite Hf, Hp. simpl.
  destruct (Prisma.isDbConnected (prisma w)) eqn:Hconn; simpl.
  - destruct Hpath as [Hoff | Hentry]; [discriminate Hoff |].
    destruct (CacheManager.get (cacheManager w) (filtered_key filters pagination))
      as [v |] eqn:Hget.
    + destruct (Hentry v Hget) as (r & -> & Hr).
      exists r, (cacheManager w). auto.
    + rewrite findMany_in_range by nia.
      eexists _, _. split; [reflexivity |].
      match goal with
      | |- page_consistent p ?r /\ _ =>
          assert (Hr : page_consistent p r); [| split; [exact Hr |]]
      end.
      * unfold page_consistent.
        cbn [data meta meta_page meta_limit total totalPages hasNext hasPrev].
        split; [| split; [reflexivity | split; [reflexivity | split;
          [unfold Prisma.count; lia | split;
            [apply Math_ceil_div_bounds; exact Hlimit | split; reflexivity]]]]].
        rewrite List.length_map, List.length_firstn. lia.
      * intros Hinv filters' pagination' p' Hp' Hpage' Hlimit' v Hv.
        rewrite get_set in Hv.
        destruct (decide (filtered_key filters pagination
                          = filtered_key filters' pagination')) as [Hkey | Hkey].
        -- injection Hv as <-.
           rewrite <- (filtered_key_pagination _ _ _ _ _ _ Hkey Hp Hp').
           eauto.
        -- exact (Hinv filters' pagination' p' Hp' Hpage' Hlimit' v Hv).
  - eexists _, _. split; [reflexivity |]. split; [| auto].
    apply fallback_page_consistent; assumption.
Qed.

Lemma getCountries_page_consistent_witness :
  (exists r c,
      getCountries Samples.no_filters Samples.first_page Samples.online
      = Some (Return (VPaginated r), c)
      /\ page_consistent {| page := 1; limit := 20 |} r
      /\ (pages_consistent (cacheManager Samples.online) -> pages_consistent c))
  /\ (exists r c,
         getCountries Samples.no_filters Samples.first_page Samples.offline
         = Some (Return (VPaginated r), c)
         /\ page_consistent {| page := 1; limit := 20 |} r
         /\ (pages_consistent (cacheManager Samples.offline) -> pages_consistent c)).
Proof.
  split.
  - apply (getCountries_page_consistent
             Samples.no_filters Samples.first_page Samples.online
             {| f_continent := None; f_region := None; f_search := None |}
             {| page := 1; limit := 20 |});
      [reflexivity | reflexivity | reflexivity | reflexivity |].
    right. apply page_entry_ok_miss. reflexivity.
  - apply (getCountries_page_consistent
             Samples.no_filters Samples.first_page Samples.offline
             {| f_continent := None; f_region := None; f_search := None |}
             {| page := 1; limit := 20 |});
      [reflexivity | reflexivity | reflexivity | reflexivity |].
    left. reflexivity.
Defined.

(** The other operations write no page: they keep the cached pages
    consistent as well. *)
Lemma other_operations_keep_pages_consistent :
  forall (localeCompare : string -> string -> comparison) (code : string) (w : World),
    pages_consistent (cacheManager w) ->
    pages_consistent (snd (getCountryByCode code w))
    /\ pages_consistent (snd (getContinents localeCompare w))
    /\ pages_consistent (snd (invalidateCache w)).
Proof.
  intros localeCompare code w Hinv. split; [| split].
  - unfold getCountryByCode.
    destruct (CacheManager.get (cacheManager w) (COUNTRY_BY_CODE ++ toUpperCase code));
      [exact Hinv |].
    destruct (negb (Prisma.isDbConnected (prisma w))); [exact Hinv |].
    destruct (Prisma.findFirst _ _); [| exact Hinv]. cbn [snd].
    intros filters pagination p Hp Hpage Hlimit v Hv. rewrite get_set in Hv.
    destruct (decide _) as [Hkey | _]; [discriminate Hkey |].
    exact (Hinv filters pagination p Hp Hpage Hlimit v Hv).
  - unfold getContinents.
    destruct (CacheManager.get (cacheManager w) CONTINENTS); [exact Hinv |].
    destruct (negb (Prisma.isDbConnected (prisma w))); [exact Hinv |]. cbn [snd].
    intros filters pagination p Hp Hpage Hlimit v Hv. rewrite get_set in Hv.
    destruct (decide _) as [Hkey | _]; [discriminate Hkey |].
    exact (Hinv filters pagination p Hp Hpage Hlimit v Hv).
  - unfold invalidateCache. cbn [snd].
    intros filters pagination p Hp Hpage Hlimit v Hv.
    do 3 apply get_del in Hv.
    exact (Hinv filters pagination p Hp Hpage Hlimit v Hv).
Qed.

(** The store path does order its page by name. *)
Lemma Sorted_map {A B} (R : A -> A -> Prop) (R' : B -> B -> Prop) (g : A -> B)
    (l : list A) :
  (forall a b, R a b -> R' (g a) (g b)) ->
  Sorted R l -> Sorted R' (List.map g l).
Proof.
  intros Hg. induction 1 as [| x l Hs IH Hhd]; simpl; constructor.
  - exact IH.
  - destruct Hhd; simpl; constructor. apply Hg. assumption.
Qed.

Lemma store_listing_ascending :
  forall (filters pagination : jsobject) (w : World) f p,
    as_CountryFilters filters = Some f ->
    as_PaginationOptions pagination = Some p ->
    0 < page p -> 0 < limit p ->
    Prisma.isDbConnected (prisma w) = true ->
    CacheManager.get (cacheManager w) (filtered_key filters pagination) = None ->
    exists r c,
      getCountries filters pagination w = Some (Return (VPaginated r), c)
      /\ ascending_by_name (data r).
Proof.
  intros filters pagination w f p Hf Hp Hpage Hlimit Hconn Hmiss.
  unfold getCountries. rewrite Hf, Hp. simpl. rewrite Hconn, Hmiss. simpl.
  rewrite findMany_in_range by nia.
  eexists _, _. split; [reflexivity |]. cbn [data].
  unfold ascending_by_name.
  apply Sorted_map with (R := fun a b => Prisma.name_asc a b = true);
    [intros a b Hab; exact Hab |].
  apply Sorted_firstn, Sorted_skipn, sort_sorted.
  intros a b. apply String.leb_total.
Qed.

(** C2 fails on the fallback path.  With the store down, the unfiltered
    first page lists the fallback table in the order it is written,
    "United States" first: the page is not ascending by name.  The store
    path, given the same seven rows, starts with "Australia". *)
Theorem fallback_listing_not_ascending :
  (exists r,
      getCountries Samples.no_filters Samples.first_page Samples.offline
      = Some (Return (VPaginated r), cacheManager Samples.offline)
      /\ List.map name (data r)
         = ["United States"; "Canada"; "United Kingdom"; "France"; "Germany";
            "Japan"; "Australia"]
      /\ ~ ascending_by_name (data r))
  /\ listed_names
       (getCountries Samples.no_filters Samples.first_page Samples.online)
     = Some ["Australia"; "Canada"; "France"; "Germany"; "Japan";
             "United Kingdom"; "United States"].
Proof.
  split.
  - eexists. split; [reflexivity |]. split; [reflexivity |].
    intros Hs. inversion Hs as [| ? ? _ Hhd]; subst.
    inversion Hhd as [| ? ? Hle]; subst. vm_compute in Hle. discriminate Hle.
  - reflexivity.
Qed.

End Listing.

(** ** Reads while the store is down *)

Section Disconnected.

Import JS CountriesService.

(** C6, as stated, fails: with the store down, a code lookup is answered
    from the cache when the cache holds the key, here with a record that
    the fallback table does not have. *)
Lemma disconnected_lookup_not_from_fallback :
  ~ (forall (localeCompare : string -> string -> comparison) (w : World),
        Prisma.isDbConnected (prisma w) = false ->
        (forall filters pagination f p,
            as_CountryFilters filters = Some f ->
            as_PaginationOptions pagination = Some p ->
            getCountries filters pagination w
            = Some (Return (VPaginated (getFallbackCountries f p (now w))),
                    cacheManager w))
        /\ (forall code,
               getCountryByCode code w
               = (map_outcome VCountry (getFallbackCountryByCode code),
                  cacheManager w))
        /\ getContinents localeCompare w
           = (Return (getFallbackContinents localeCompare (now w)), cacheManager w)).
Proof.
  intros H.
  destruct (H String.compare Samples.offline_with_cached_country eq_refl)
    as (_ & Hcode & _).
  specialize (Hcode "ng"). apply (f_equal fst) in Hcode.
  vm_compute in Hcode. discriminate Hcode.
Qed.

(** C6, amended.  With the store down no operation writes to the cache:
    [getCountries], [getCountryByCode] and [getContinents] return the
    cache as they found it.  [getCountries] answers from the fallback
    table.  [getCountryByCode] and [getContinents] answer from the
    fallback table when the cache holds nothing under their key, and
    with the cached value otherwise. *)
Theorem disconnected_reads_leave_cache :
  forall (localeCompare : string -> string -> comparison) (w : World),
    Prisma.isDbConnected (prisma w) = false ->
    (forall filters pagination f p,
        as_CountryFilters filters = Some f ->
        as_PaginationOptions pagination = Some p ->
        getCountries filters pagination w
        = Some (Return (VPaginated (getFallbackCountries f p (now w))),
                cacheManager w))
    /\ (forall code,
           getCountryByCode code w
           = (match CacheManager.get (cacheManager w)
                      (COUNTRY_BY_CODE ++ toUpperCase code) with
              | Some cached => Return cached
              | None => map_outcome VCountry (getFallbackCountryByCode code)
              end,
              cacheManager w))
    /\ getContinents localeCompare w
       = (match CacheManager.get (cacheManager w) CONTINENTS with
          | Some cached =>
              Return (VEnvelope true "Continents retrieved successfully" (now w) cached)
          | None => Return (getFallbackContinents localeCompare (now w))
          end,
          cacheManager w).
Proof.
  intros localeCompare w Hoff. split; [| split].
  - intros filters pagination f p Hf Hp.
    unfold getCountries. rewrite Hf, Hp. simpl. rewrite Hoff. reflexivity.
  - intros code. unfold getCountryByCode. rewrite Hoff. simpl.
    destruct (CacheManager.get (cacheManager w) (COUNTRY_BY_CODE ++ toUpperCase code));
      reflexivity.
  - unfold getContinents. rewrite Hoff. simpl.
    destruct (CacheManager.get (cacheManager w) CONTINENTS); reflexivity.
Qed.

Lemma disconnected_reads_leave_cache_witness :
  getCountryByCode "us" Samples.offline
  = (map_outcome VCountry (getFallbackCountryByCode "us"), cacheManager Samples.offline)
  /\ getCountryByCode "ng" Samples.offline_with_cached_country
     = (Return (VCountry Samples.nigeria),
        cacheManager Samples.offline_with_cached_country).
Proof.
  split.
  - apply (proj1 (proj2 (disconnected_reads_leave_cache
                           String.compare Samples.offline eq_refl))).
  - apply (proj1 (proj2 (disconnected_reads_leave_cache
                           String.compare Samples.offline_with_cached_country
                           eq_refl))).
Defined.

End Disconnected.

(** ** Continent summaries of the fallback table *)

Section Continents.

Import JS CountriesService.

(** The counting loop leaves the continents in the order of their first
    record. *)
Ltac count_fallback_continents :=
  match goal with
  | |- context [fold_left ?step getFallbackCountryData ?init] =>
      change (fold_left step getFallbackCountryData init)
        with [("North America", 2); ("Europe", 3); ("Asia", 1); ("Oceania", 1)]
  end.

(** C3, as stated, fails: whatever the collation, the summaries of the
    fallback table do not start with Europe counted once and North
    America counted once. *)
Lemma fallback_continents_not_as_example :
  ~ (exists (localeCompare : string -> string -> comparison) (w : World)
            (rest : list ContinentCount),
        Prisma.isDbConnected (prisma w) = false
        /\ CacheManager.get (cacheManager w) CONTINENTS = None
        /\ fst (getContinents localeCompare w)
           = Return (VEnvelope true "Continents retrieved successfully (fallback data)"
                               (now w)
                               (VContinentData
                                  ({| continent_name := "Europe"; countryCount := 1 |}
                                   :: {| continent_name := "North America";
                                         countryCount := 1 |}
                                   :: rest)))).
Proof.
  intros (localeCompare & w & rest & Hoff & Hmiss & Heq). revert Heq.
  unfold getContinents. rewrite Hmiss, Hoff. cbn [negb fst].
  unfold getFallbackContinents. cbv zeta. count_fallback_continents.
  intros Heq.
  assert (Hin : List.In {| continent_name := "Europe"; countryCount := 1 |}
                  (Ordered.sort (by_name localeCompare)
                     (List.map (fun entry => {| continent_name := fst entry;
                                                countryCount := snd entry |})
                        [("North America", 2); ("Europe", 3); ("Asia", 1);
                         ("Oceania", 1)]))).
  { match goal with
    | |- List.In _ ?sorted =>
        replace sorted
          with ({| continent_name := "Europe"; countryCount := 1 |}
                :: {| continent_name := "North America"; countryCount := 1 |}
                :: rest)
    end; [left; reflexivity |].
    symmetry. injection Heq. intros Hl. exact Hl. }
  apply sort_In in Hin. simpl in Hin.
  destruct Hin as [H | [H | [H | [H | []]]]]; discriminate H.
Qed.

(** C3, amended.  With the store down and no summaries cached,
    [getContinents] groups the fallback table by continent, counts, and
    sorts by name; when [localeCompare] orders the four continent names
    as their letters do, the listing is Asia 1, Europe 3, North America 2,
    Oceania 1, and the cache is left alone. *)
Theorem getContinents_fallback_listing :
  forall (localeCompare : string -> string -> comparison) (w : World),
    alphabetical_on localeCompare fallback_continent_names ->
    Prisma.isDbConnected (prisma w) = false ->
    CacheManager.get (cacheManager w) CONTINENTS = None ->
    getContinents localeCompare w
    = (Return (VEnvelope true "Continents retrieved successfully (fallback data)"
                         (now w)
                         (VContinentData
                            [ {| continent_name := "Asia"; countryCount := 1 |};
                              {| continent_name := "Europe"; countryCount := 3 |};
                              {| continent_name := "North America"; countryCount := 2 |};
                              {| continent_name := "Oceania"; countryCount := 1 |} ])),
       cacheManager w).
Proof.
  intros localeCompare w Halpha Hoff Hmiss.
  unfold getContinents. rewrite Hmiss, Hoff. cbn [negb].
  unfold getFallbackContinents. cbv zeta. count_fallback_continents.
  unfold Ordered.sort, by_name. simpl.
  rewrite (Halpha "Asia" "Oceania") by (simpl; tauto). simpl.
  rewrite (Halpha "Europe" "Asia") by (simpl; tauto). simpl.
  rewrite (Halpha "Europe" "Oceania") by (simpl; tauto). simpl.
  rewrite (Halpha "North America" "Asia") by (simpl; tauto). simpl.
  rewrite (Halpha "North America" "Europe") by (simpl; tauto). simpl.
  rewrite (Halpha "North America" "Oceania") by (simpl; tauto). simpl.
  reflexivity.
Qed.

Lemma getContinents_fallback_listing_witness :
  getContinents String.compare Samples.offline
  = (Return (VEnvelope true "Continents retrieved successfully (fallback data)"
                       (now Samples.offline)
                       (VContinentData
                          [ {| continent_name := "Asia"; countryCount := 1 |};
                            {| continent_name := "Europe"; countryCount := 3 |};
                            {| continent_name := "North America"; countryCount := 2 |};
                            {| continent_name := "Oceania"; countryCount := 1 |} ])),
     cacheManager Samples.offline).
Proof.
  apply (getContinents_fallback_listing String.compare Samples.offline).
  - intros a b _ _. reflexivity.
  - reflexivity.
  - reflexivity.
Defined.

End Continents.

(** ** Cache keys of filtered listings *)

Section CacheKeys.

Import JS CountriesService.

(** On an object without nested objects, [normalize] drops the
    properties that hold [undefined] and nothing else. *)
Lemma norm_props_flat (o : jsobject) : flat o -> norm_props o = defined_props o.
Proof.
  unfold flat, defined_props.
  induction 1 as [| [k x] o Hx Ho IH]; [reflexivity |].
  cbn [norm_props List.filter snd]. rewrite IH.
  destruct x; try reflexivity. destruct Hx.
Qed.

(** C4, as stated, fails: two filter objects with the same value at
    every field, built in different orders, get different keys. *)
Lemma filtered_key_depends_on_field_order :
  ~ (forall f1 f2 p1 p2 : jsobject,
        same_fields f1 f2 -> same_fields p1 p2 ->
        filtered_key f1 p1 = filtered_key f2 p2).
Proof.
  intros H.
  specialize (H [("continent", JString "Europe"); ("search", JString "fr")]
                [("search", JString "fr"); ("continent", JString "Europe")]
                Samples.first_page Samples.first_page).
  assert (Hkeys : filtered_key
                    [("continent", JString "Europe"); ("search", JString "fr")]
                    Samples.first_page
                  <> filtered_key
                       [("search", JString "fr"); ("continent", JString "Europe")]
                       Samples.first_page)
    by (vm_compute; discriminate).
  apply Hkeys, H.
  - intros k. cbn [get_prop].
    destruct (String.eqb_spec "continent" k) as [Hc | Hc];
      destruct (String.eqb_spec "search" k) as [Hs | Hs];
      try reflexivity.
    exfalso. rewrite <- Hc in Hs. discriminate Hs.
  - intros k. reflexivity.
Qed.

(** C4, amended.  Two filter and pagination combinations get
    byte-identical keys exactly when their filter objects, and their
    pagination objects, hold the same defined properties with the same
    values in the same order: properties holding [undefined] leave no
    trace in the key, and the order of the others is part of it. *)
Theorem filtered_key_equal_iff_same_defined_props :
  forall f1 f2 p1 p2 : jsobject,
    flat f1 -> flat f2 -> flat p1 -> flat p2 ->
    filtered_key f1 p1 = filtered_key f2 p2
    <-> defined_props f1 = defined_props f2
        /\ defined_props p1 = defined_props p2.
Proof.
  intros f1 f2 p1 p2 Hf1 Hf2 Hp1 Hp2.
  rewrite filtered_key_inj, !normalize_object.
  rewrite !norm_props_flat by assumption.
  split; intros [Hf Hp]; split; congruence.
Qed.

Lemma filtered_key_equal_iff_same_defined_props_witness :
  filtered_key [("continent", JString "Europe"); ("search", JUndefined)]
               Samples.first_page
  = filtered_key [("region", JUndefined); ("continent", JString "Europe")]
                 Samples.first_page.
Proof.
  apply (proj2 (filtered_key_equal_iff_same_defined_props
                  [("continent", JString "Europe"); ("search", JUndefined)]
                  [("region", JUndefined); ("continent", JString "Europe")]
                  Samples.first_page Samples.first_page
                  ltac:(repeat constructor) ltac:(repeat constructor)
                  ltac:(repeat constructor) ltac:(repeat constructor))).
  split; reflexivity.
Defined.

End CacheKeys.

(** ** Lookups by code *)

Section CodeLookup.

Import JS CountriesService.

Lemma transformToDto_id (row : Prisma.CountryRow) : transformToDto row = row.
Proof. destruct row; reflexivity. Qed.

Lemma dataset_connected (w : World) :
  Prisma.isDbConnected (prisma w) = true ->
  dataset w = Prisma.country (prisma w).
Proof.
  intros Hconn. unfold dataset. rewrite Hconn.
  rewrite (List.map_ext _ (fun x => x) transformToDto_id). apply List.map_id.
Qed.

Lemma dataset_disconnected (w : World) :
  Prisma.isDbConnected (prisma w) = false ->
  dataset w = getFallbackCountryData.
Proof. intros Hoff. unfold dataset. rewrite Hoff. reflexivity. Qed.


(** The predicate of the [findFirst] query is [code_matches]. *)
Lemma findFirst_condition (c : string) (row : Prisma.CountryRow) :
  Prisma.row_matches
    {| Prisma.where_continent := None;
       Prisma.where_region := None;
       Prisma.where_OR :=
         Some [ (Prisma.col_code, Prisma.equals_insensitive (toUpperCase c));
                (Prisma.col_code3, Prisma.equals_insensitive (toUpperCase c)) ] |}
    row
  = code_matches c row.
Proof.
  unfold Prisma.row_matches, code_matches. simpl.
  rewrite toLowerCase_toUpperCase, orb_false_r. reflexivity.
Qed.

Lemma find_ext {A} (g h : A -> bool) (l : list A) :
  (forall x, g x = h x) -> List.find g l = List.find h l.
Proof.
  intros Hgh. induction l as [| x l IH]; simpl; [reflexivity |].
  rewrite Hgh, IH. reflexivity.
Qed.

Lemma getCountryByCode_miss (c : string) (w : World) :
  CacheManager.get (cacheManager w) (COUNTRY_BY_CODE ++ toUpperCase c) = None ->
  getCountryByCode c w
  = match first_match c (dataset w) with
    | Some r =>
        (Return (VCountry r),
         if Prisma.isDbConnected (prisma w)
         then CacheManager.set (cacheManager w) (COUNTRY_BY_CODE ++ toUpperCase c)
                               (VCountry r) CACHE_TTL
         else cacheManager w)
    | None => (Throw (not_found c), cacheManager w)
    end.
Proof.
  intros Hmiss. unfold getCountryByCode. rewrite Hmiss.
  destruct (Prisma.isDbConnected (prisma w)) eqn:Hconn; cbn [negb].
  - rewrite dataset_connected by exact Hconn.
    unfold Prisma.findFirst, first_match.
    rewrite (find_ext _ (code_matches c) _ (findFirst_condition c)).
    destruct (List.find (code_matches c) (Prisma.country (prisma w))) as [row |];
      [rewrite transformToDto_id |]; reflexivity.
  - rewrite dataset_disconnected by exact Hconn.
    unfold getFallbackCountryByCode, first_match.
    change (fun c0 : CountryDto =>
              ((toLowerCase (Dto.code c0) =? toLowerCase c)%string
               || (toLowerCase (Dto.code3 c0) =? toLowerCase c)%string)%bool)
      with (code_matches c).
    destruct (List.find (code_matches c) getFallbackCountryData); reflexivity.
Qed.




Lemma code_key_inj (a b : string) :
  COUNTRY_BY_CODE ++ a = COUNTRY_BY_CODE ++ b -> a = b.
Proof. cbv [COUNTRY_BY_CODE]. simpl. intros H. injection H as H. exact H. Qed.



Lemma fallback_codes_ascii : ascii_codes getFallbackCountryData.
Proof. unfold ascii_codes. repeat constructor. Qed.




(** C8, as stated, fails: with the store down and a record of the store
    cached under "NG", no record of the fallback table has the code "ng",
    and yet the lookup does not throw: it returns the cached record. *)
Lemma getCountryByCode_found_without_match :
  ~ (forall (w : World) (c : string),
        ascii_string c = true ->
        ascii_codes (dataset w) ->
        fst (getCountryByCode c w) = Throw (not_found c)
        <-> (forall r, List.In r (dataset w) -> code_matches c r = false)).
Proof.
  intros H.
  destruct (H Samples.offline_with_cached_country "ng" eq_refl fallback_codes_ascii)
    as [_ Hthrow].
  assert (Hcall : fst (getCountryByCode "ng" Samples.offline_with_cached_country)
                  = Return (VCountry Samples.nigeria)) by reflexivity.
  rewrite Hcall in Hthrow.
  assert (Hcontra : Return (VCountry Samples.nigeria) = Throw (not_found "ng")).
  { apply Hthrow. intros r Hin. simpl in Hin.
    repeat (destruct Hin as [<- | Hin]; [reflexivity |]). destruct Hin. }
  discriminate Hcontra.
Qed.

(** C8, amended.  For an ASCII code and a dataset with ASCII codes,
    [getCountryByCode] throws [NotFoundException] exactly when the cache
    holds nothing under the key of the code and no record of the dataset
    (the table of the store when it is connected, the fallback table
    otherwise) has the code as its 2-letter or 3-letter code up to case.
    An entry of the cache under the key is returned without any lookup. *)
Theorem getCountryByCode_not_found_iff_miss_and_no_match :
  forall (w : World) (c : string),
    ascii_string c = true ->
    ascii_codes (dataset w) ->
    fst (getCountryByCode c w) = Throw (not_found c)
    <-> CacheManager.get (cacheManager w) (COUNTRY_BY_CODE ++ toUpperCase c) = None
        /\ (forall r, List.In r (dataset w) -> code_matches c r = false).
Proof.
  intros w c _ _.
  destruct (CacheManager.get (cacheManager w) (COUNTRY_BY_CODE ++ toUpperCase c))
    as [v |] eqn:Hget.
  - assert (Hcall : getCountryByCode c w = (Return v, cacheManager w))
      by (unfold getCountryByCode; rewrite Hget; reflexivity).
    rewrite Hcall. simpl. split; [discriminate | intros [Hnone _]; discriminate Hnone].
  - rewrite (getCountryByCode_miss c w Hget). unfold first_match.
    destruct (List.find (code_matches c) (dataset w)) as [r |] eqn:Hfind; simpl.
    + split; [discriminate |].
      intros [_ Hnone]. apply List.find_some in Hfind as [Hin Hm].
      rewrite (Hnone r Hin) in Hm. discriminate Hm.
    + split; [| reflexivity].
      intros _. split; [reflexivity | exact (List.find_none _ _ Hfind)].
Qed.

Lemma getCountryByCode_not_found_iff_miss_and_no_match_witness :
  fst (getCountryByCode "ZZZZZ" Samples.offline) = Throw (not_found "ZZZZZ")
  /\ fst (getCountryByCode "ZZZZZ" Samples.online) = Throw (not_found "ZZZZZ").
Proof.
  split.
  - apply (proj2 (getCountryByCode_not_found_iff_miss_and_no_match
                    Samples.offline "ZZZZZ" eq_refl fallback_codes_ascii)).
    split; [reflexivity |]. intros r Hin. simpl in Hin.
    repeat (destruct Hin as [<- | Hin]; [reflexivity |]). destruct Hin.
  - apply (proj2 (getCountryByCode_not_found_iff_miss_and_no_match
                    Samples.online "ZZZZZ" eq_refl fallback_codes_ascii)).
    split; [reflexivity |]. intros r Hin. simpl in Hin.
    repeat (destruct Hin as [<- | Hin]; [reflexivity |]). destruct Hin.
Defined.

End CodeLookup.

(** ** The region filter and the HTTP interface *)

Section HttpListing.

Import JS CountriesService.

Lemma filter_filter {A} (g h : A -> bool) (l : list A) :
  List.filter g (List.filter h l) = List.filter (fun x => (h x && g x)%bool) l.
Proof.
  induction l as [| x l IH]; simpl; [reflexivity |].
  destruct (h x); simpl; [destruct (g x) |]; rewrite IH; reflexivity.
Qed.

Lemma filter_true {A} (l : list A) : List.filter (fun _ => true) l = l.
Proof. induction l as [| x l IH]; simpl; [| rewrite IH]; reflexivity. Qed.

(** The fallback path selects the records that the [where] object of
    the store path selects. *)
Lemma fallback_selection (f : CountryFilters) (p : PaginationOptions) (time : string) :
  data (getFallbackCountries f p time)
  = slice (List.filter (Prisma.row_matches (where_clause f)) getFallbackCountryData)
          ((page p - 1) * limit p) ((page p - 1) * limit p + limit p).
Proof.
  unfold getFallbackCountries. cbv zeta. cbn [data].
  f_equal. generalize getFallbackCountryData as table. intros table.
  unfold Prisma.row_matches, where_clause. cbn [Prisma.where_continent
    Prisma.where_region Prisma.where_OR].
  destruct (truthy (f_continent f)), (truthy (f_region f)), (truthy (f_search f));
    rewrite ?filter_filter;
    try (apply List.filter_ext; intros row; simpl;
         rewrite ?orb_false_r, ?andb_true_r, ?andb_assoc, ?orb_assoc;
         reflexivity).
  symmetry. apply filter_true.
Qed.

(** C10.  The handler of [GET /countries] calls the service with a
    filters object that has a [continent] and a [search] property and no
    [region]: the service sees no region value, builds a [where] object
    without a region condition, selects rows whatever their [region]
    field holds, and, with the store down, cuts its page out of the
    fallback records that this region-blind condition selects. *)
Theorem http_listing_never_filters_by_region :
  forall (page limit : option Z) (continent search : option string) (w : World),
    let filters := [("continent", CountriesController.optional continent);
                    ("search", CountriesController.optional search)] in
    let pagination := [("page", JNumber (default 1 page));
                       ("limit", JNumber (default 20 limit))] in
    let f := {| f_continent := continent; f_region := None; f_search := search |} in
    CountriesController.getCountries page limit continent search w
    = CountriesService.getCountries filters pagination w
    /\ get_prop "region" filters = JUndefined
    /\ as_CountryFilters filters = Some f
    /\ as_PaginationOptions pagination
       = Some {| Dto.page := default 1 page; Dto.limit := default 20 limit |}
    /\ Prisma.where_region (where_clause f) = None
    /\ (forall (row : Prisma.CountryRow) (x : string),
          Prisma.row_matches (where_clause f) (with_region x row)
          = Prisma.row_matches (where_clause f) row)
    /\ (forall (p : PaginationOptions) (time : string),
          data (getFallbackCountries f p time)
          = slice (List.filter (Prisma.row_matches (where_clause f))
                               getFallbackCountryData)
                  ((Dto.page p - 1) * Dto.limit p)
                  ((Dto.page p - 1) * Dto.limit p + Dto.limit p)).
Proof.
  intros page limit continent search w filters pagination f.
  split; [reflexivity |].
  split; [destruct continent, search; reflexivity |].
  split; [destruct continent, search; reflexivity |].
  split; [reflexivity |].
  split; [reflexivity |].
  split; [| intros p time; apply fallback_selection].
  intros row x. unfold Prisma.row_matches, where_clause.
  cbn [Prisma.where_continent Prisma.where_region Prisma.where_OR f f_region
       f_continent f_search truthy].
  destruct (truthy continent), (truthy search); reflexivity.
Qed.

End HttpListing.

(** * Further properties of the service *)

(** ** The key spaces of the cache *)

Section KeySpaces.

Import JS CountriesService.

Lemma filtered_key_not_code (filters pagination : jsobject) (K : string) :
  filtered_key filters pagination <> COUNTRY_BY_CODE ++ K.
Proof. cbv [filtered_key COUNTRY_BY_CODE]. intros H. discriminate H. Qed.

Lemma filtered_key_not_all (filters pagination : jsobject) :
  filtered_key filters pagination <> ALL_COUNTRIES.
Proof. cbv [filtered_key ALL_COUNTRIES]. intros H. discriminate H. Qed.

Lemma filtered_key_not_continents (filters pagination : jsobject) :
  filtered_key filters pagination <> CONTINENTS.
Proof. cbv [filtered_key CONTINENTS]. intros H. discriminate H. Qed.

Lemma code_key_not_all (K : string) : COUNTRY_BY_CODE ++ K <> ALL_COUNTRIES.
Proof. cbv [COUNTRY_BY_CODE ALL_COUNTRIES]. intros H. discriminate H. Qed.

Lemma code_key_not_continents (K : string) : COUNTRY_BY_CODE ++ K <> CONTINENTS.
Proof. cbv [COUNTRY_BY_CODE CONTINENTS]. intros H. discriminate H. Qed.

Lemma all_not_continents : ALL_COUNTRIES <> CONTINENTS.
Proof. discriminate. Qed.

Lemma set_well_typed (c : CacheManager.Cache) (key : string) (v : Value) (ttl : Z) :
  cache_well_typed c -> entry_well_typed key v ->
  cache_well_typed (CacheManager.set c key v ttl).
Proof.
  intros Hc Hv key' v' Hget. rewrite get_set in Hget.
  destruct (decide (key = key')) as [<- | _].
  - injection Hget as <-. exact Hv.
  - exact (Hc key' v' Hget).
Qed.

Lemma page_entry_well_typed (filters pagination : jsobject) (r : PaginatedResponseDto) :
  entry_well_typed (filtered_key filters pagination) (VPaginated r).
Proof.
  repeat split.
  - intros H. destruct (filtered_key_not_all _ _ H).
  - intros H. destruct (filtered_key_not_continents _ _ H).
  - intros K H. destruct (filtered_key_not_code _ _ _ H).
  - intros _ _ _. eauto.
Qed.

Lemma code_entry_well_typed (K : string) (r : CountryDto) :
  entry_well_typed (COUNTRY_BY_CODE ++ K) (VCountry r).
Proof.
  repeat split.
  - intros H. destruct (code_key_not_all _ H).
  - intros H. destruct (code_key_not_continents _ H).
  - intros _ _. eauto.
  - intros f p H. symmetry in H. destruct (filtered_key_not_code _ _ _ H).
Qed.

Lemma continents_entry_well_typed (l : list ContinentCount) :
  entry_well_typed CONTINENTS (VContinentData l).
Proof.
  repeat split.
  - intros H. symmetry in H. destruct (all_not_continents H).
  - intros _. eauto.
  - intros K H. symmetry in H. destruct (code_key_not_continents _ H).
  - intros f p H. symmetry in H. destruct (filtered_key_not_continents _ _ H).
Qed.

Lemma all_entry_well_typed (l : list CountryDto) :
  entry_well_typed ALL_COUNTRIES (VCountries l).
Proof.
  repeat split.
  - intros _. eauto.
  - intros H. destruct (all_not_continents H).
  - intros K H. symmetry in H. destruct (code_key_not_all _ H).
  - intros f p H. symmetry in H. destruct (filtered_key_not_all _ _ H).
Qed.

(** X1.  The cache manager is untyped, and each operation casts what it
    reads to the type it expects.  The casts are safe: when every entry
    of the cache is of the type declared for its key, each of the four
    read operations returns a value of its declared type (or throws) and
    leaves such a cache behind, and so does [invalidateCache].  No two
    kinds of key coincide, whatever code, filters or pagination the
    caller supplies. *)
Theorem cache_casts_are_safe :
  forall (localeCompare : string -> string -> comparison) (w : World),
    cache_well_typed (cacheManager w) ->
    (forall filters pagination f p,
        as_CountryFilters filters = Some f ->
        as_PaginationOptions pagination = Some p ->
        exists o c,
          getCountries filters pagination w = Some (o, c)
          /\ ((exists r, o = Return (VPaginated r)) \/ o = Throw UpstreamFailure)
          /\ cache_well_typed c)
    /\ (forall code,
           ((exists r, fst (getCountryByCode code w) = Return (VCountry r))
            \/ fst (getCountryByCode code w) = Throw (not_found code))
           /\ cache_well_typed (snd (getCountryByCode code w)))
    /\ ((exists time l,
            fst (getContinents localeCompare w)
            = Return (VEnvelope true "Continents retrieved successfully" time
                                (VContinentData l))
            \/ fst (getContinents localeCompare w)
               = Return (VEnvelope true
                           "Continents retrieved successfully (fallback data)"
                           time (VContinentData l)))
        /\ cache_well_typed (snd (getContinents localeCompare w)))
    /\ ((exists l, fst (getAllCountries w) = Return (VCountries l))
        /\ cache_well_typed (snd (getAllCountries w)))
    /\ cache_well_typed (snd (invalidateCache w)).
Proof.
  intros localeCompare w Hc. split; [| split; [| split; [| split]]].
  - intros filters pagination f p Hf Hp. unfold getCountries.
    rewrite Hf, Hp. cbn [mbind option_bind].
    destruct (negb (Prisma.isDbConnected (prisma w))).
    { eexists _, _. split; [reflexivity |]. split; [left; eauto | exact Hc]. }
    destruct (CacheManager.get (cacheManager w) (filtered_key filters pagination))
      as [v |] eqn:Hget.
    { destruct (Hc _ _ Hget) as (_ & _ & _ & Hpage).
      destruct (Hpage filters pagination eq_refl) as [r ->].
      eexists _, _. split; [reflexivity |]. split; [left; eauto | exact Hc]. }
    destruct (Prisma.findMany _ _ _ _).
    + eexists _, _. split; [reflexivity |]. split; [left; eauto |].
      apply set_well_typed; [exact Hc | apply page_entry_well_typed].
    + eexists _, _. split; [reflexivity |]. split; [right; reflexivity | exact Hc].
  - intros code. unfold getCountryByCode.
    destruct (CacheManager.get (cacheManager w) (COUNTRY_BY_CODE ++ toUpperCase code))
      as [v |] eqn:Hget.
    { destruct (Hc _ _ Hget) as (_ & _ & Hcode & _).
      destruct (Hcode (toUpperCase code) eq_refl) as [r ->].
      split; [left; eauto | exact Hc]. }
    destruct (negb (Prisma.isDbConnected (prisma w))).
    { split; [| exact Hc]. cbn [fst]. unfold getFallbackCountryByCode.
      destruct (List.find _ _); cbn [map_outcome]; eauto. }
    destruct (Prisma.findFirst _ _) as [row |].
    + split; [left; cbn [fst]; eauto |]. cbn [snd].
      apply set_well_typed; [exact Hc | apply code_entry_well_typed].
    + split; [right; reflexivity | exact Hc].
  - unfold getContinents.
    destruct (CacheManager.get (cacheManager w) CONTINENTS) as [v |] eqn:Hget.
    { destruct (Hc _ _ Hget) as (_ & Hcont & _ & _).
      destruct (Hcont eq_refl) as [l ->].
      split; [exists (now w), l; left; reflexivity | exact Hc]. }
    destruct (negb (Prisma.isDbConnected (prisma w))).
    + split; [| exact Hc]. unfold getFallbackContinents.
      eexists _, _. right. reflexivity.
    + split; [eexists _, _; left; reflexivity |]. cbn [snd].
      apply set_well_typed; [exact Hc | apply continents_entry_well_typed].
  - unfold getAllCountries.
    destruct (CacheManager.get (cacheManager w) ALL_COUNTRIES) as [v |] eqn:Hget.
    { destruct (Hc _ _ Hget) as (Hall & _ & _ & _).
      destruct (Hall eq_refl) as [l ->].
      split; [eauto | exact Hc]. }
    split; [cbn [fst]; eauto |]. cbn [snd].
    apply set_well_typed; [exact Hc | apply all_entry_well_typed].
  - unfold invalidateCache. cbn [snd]. intros key v Hget.
    do 3 apply get_del in Hget. exact (Hc key v Hget).
Qed.

Lemma cache_well_typed_empty : cache_well_typed ∅.
Proof. intros key v Hget. discriminate Hget. Qed.

Lemma cache_casts_are_safe_witness :
  (exists r, fst (getCountryByCode "us" Samples.online) = Return (VCountry r))
  \/ fst (getCountryByCode "us" Samples.online) = Throw (not_found "us").
Proof.
  apply (proj1 (proj1 (proj2 (cache_casts_are_safe
                                String.compare Samples.online
                                cache_well_typed_empty)) "us")).
Defined.

End KeySpaces.

(** ** What an operation writes *)

Section Writes.

Import JS CountriesService.

Lemma set_lookup_other (c : CacheManager.Cache) (k k' : string) (v : Value) (ttl : Z) :
  k' <> k -> CacheManager.set c k v ttl !! k' = c !! k'.
Proof. intros Hne. unfold CacheManager.set. apply lookup_insert_ne. congruence. Qed.

(** X2.  Each read operation writes at most the entry of its own key:
    [getCountries] the key of its request, [getCountryByCode] the
    per-code key of the uppercased code, [getContinents] and
    [getAllCountries] their fixed keys.  Every other entry of the cache,
    value and time-to-live, is what it was before the call. *)
Theorem reads_write_own_key_only :
  forall (localeCompare : string -> string -> comparison) (w : World) (key : string),
    (forall filters pagination o c,
        getCountries filters pagination w = Some (o, c) ->
        key <> filtered_key filters pagination ->
        c !! key = cacheManager w !! key)
    /\ (forall code,
           key <> COUNTRY_BY_CODE ++ toUpperCase code ->
           snd (getCountryByCode code w) !! key = cacheManager w !! key)
    /\ (key <> CONTINENTS ->
        snd (getContinents localeCompare w) !! key = cacheManager w !! key)
    /\ (key <> ALL_COUNTRIES ->
        snd (getAllCountries w) !! key = cacheManager w !! key).
Proof.
  intros localeCompare w key. split; [| split; [| split]].
  - intros filters pagination o c Hcall Hkey. unfold getCountries in Hcall.
    destruct (as_CountryFilters filters) as [f |]; [| discriminate Hcall].
    destruct (as_PaginationOptions pagination) as [p |]; [| discriminate Hcall].
    cbn [mbind option_bind] in Hcall.
    destruct (negb (Prisma.isDbConnected (prisma w)));
      [injection Hcall as _ <-; reflexivity |].
    destruct (CacheManager.get (cacheManager w) (filtered_key filters pagination));
      [injection Hcall as _ <-; reflexivity |].
    destruct (Prisma.findMany _ _ _ _); injection Hcall as _ <-;
      [apply set_lookup_other; exact Hkey | reflexivity].
  - intros code Hkey. unfold getCountryByCode.
    destruct (CacheManager.get (cacheManager w) (COUNTRY_BY_CODE ++ toUpperCase code));
      [reflexivity |].
    destruct (negb (Prisma.isDbConnected (prisma w))); [reflexivity |].
    destruct (Prisma.findFirst _ _); [| reflexivity].
    apply set_lookup_other. exact Hkey.
  - intros Hkey. unfold getContinents.
    destruct (CacheManager.get (cacheManager w) CONTINENTS); [reflexivity |].
    destruct (negb (Prisma.isDbConnected (prisma w))); [reflexivity |].
    apply set_lookup_other. exact Hkey.
  - intros Hkey. unfold getAllCountries.
    destruct (CacheManager.get (cacheManager w) ALL_COUNTRIES); [reflexivity |].
    apply set_lookup_other. exact Hkey.
Qed.

(** X3.  A call that throws stores nothing: when [getCountries] or
    [getCountryByCode] ends in an exception, [NotFoundException]
    included, the cache is exactly what it was.  A failed lookup is
    therefore looked up again by the next call. *)
Theorem throwing_calls_leave_cache :
  forall (w : World),
    (forall filters pagination e c,
        getCountries filters pagination w = Some (Throw e, c) ->
        c = cacheManager w)
    /\ (forall code e,
           fst (getCountryByCode code w) = Throw e ->
           snd (getCountryByCode code w) = cacheManager w).
Proof.
  intros w. split.
  - intros filters pagination e c Hcall. unfold getCountries in Hcall.
    destruct (as_CountryFilters filters) as [f |]; [| discriminate Hcall].
    destruct (as_PaginationOptions pagination) as [p |]; [| discriminate Hcall].
    cbn [mbind option_bind] in Hcall.
    destruct (negb (Prisma.isDbConnected (prisma w))); [discriminate Hcall |].
    destruct (CacheManager.get (cacheManager w) (filtered_key filters pagination));
      [injection Hcall as _ <-; reflexivity |].
    destruct (Prisma.findMany _ _ _ _); [discriminate Hcall |].
    injection Hcall as _ <-. reflexivity.
  - intros code e. unfold getCountryByCode.
    destruct (CacheManager.get (cacheManager w) (COUNTRY_BY_CODE ++ toUpperCase code));
      [reflexivity |].
    destruct (negb (Prisma.isDbConnected (prisma w))); [reflexivity |].
    destruct (Prisma.findFirst _ _); [discriminate | reflexivity].
Qed.

Lemma set_ttl_uniform (c : CacheManager.Cache) (k : string) (v : Value) :
  ttl_uniform c -> ttl_uniform (CacheManager.set c k v CACHE_TTL).
Proof.
  intros Hc key e. unfold CacheManager.set. rewrite lookup_insert.
  destruct (decide (k = key)); [intros [= <-]; reflexivity | apply Hc].
Qed.

Lemma ttl_uniform_empty : ttl_uniform ∅.
Proof. intros key e H. rewrite lookup_empty in H. discriminate H. Qed.

(** X4.  Every entry the service stores carries the one time-to-live of
    the service, 24 hours in seconds: a cache whose entries all have it
    still has that property after any of the five operations. *)
Theorem entries_keep_service_ttl :
  forall (localeCompare : string -> string -> comparison) (w : World),
    ttl_uniform (cacheManager w) ->
    CACHE_TTL = 86400
    /\ (forall filters pagination o c,
           getCountries filters pagination w = Some (o, c) -> ttl_uniform c)
    /\ (forall code, ttl_uniform (snd (getCountryByCode code w)))
    /\ ttl_uniform (snd (getContinents localeCompare w))
    /\ ttl_uniform (snd (getAllCountries w))
    /\ ttl_uniform (snd (invalidateCache w)).
Proof.
  intros localeCompare w Hc. split; [reflexivity |].
  split; [| split; [| split; [| split]]].
  - intros filters pagination o c Hcall. unfold getCountries in Hcall.
    destruct (as_CountryFilters filters) as [f |]; [| discriminate Hcall].
    destruct (as_PaginationOptions pagination) as [p |]; [| discriminate Hcall].
    cbn [mbind option_bind] in Hcall.
    destruct (negb (Prisma.isDbConnected (prisma w)));
      [injection Hcall as _ <-; exact Hc |].
    destruct (CacheManager.get (cacheManager w) (filtered_key filters pagination));
      [injection Hcall as _ <-; exact Hc |].
    destruct (Prisma.findMany _ _ _ _); injection Hcall as _ <-;
      [apply set_ttl_uniform; exact Hc | exact Hc].
  - intros code. unfold getCountryByCode.
    destruct (CacheManager.get (cacheManager w) (COUNTRY_BY_CODE ++ toUpperCase code));
      [exact Hc |].
    destruct (negb (Prisma.isDbConnected (prisma w))); [exact Hc |].
    destruct (Prisma.findFirst _ _); [| exact Hc].
    apply set_ttl_uniform. exact Hc.
  - unfold getContinents.
    destruct (CacheManager.get (cacheManager w) CONTINENTS); [exact Hc |].
    destruct (negb (Prisma.isDbConnected (prisma w))); [exact Hc |].
    apply set_ttl_uniform. exact Hc.
  - unfold getAllCountries.
    destruct (CacheManager.get (cacheManager w) ALL_COUNTRIES); [exact Hc |].
    apply set_ttl_uniform. exact Hc.
  - unfold invalidateCache, CacheManager.del. cbn [snd]. intros key e H.
    rewrite !lookup_delete in H.
    repeat (destruct (decide _) in H; [discriminate H |]).
    exact (Hc key e H).
Qed.

Lemma entries_keep_service_ttl_witness :
  ttl_uniform (snd (getAllCountries Samples.online)).
Proof.
  apply (entries_keep_service_ttl String.compare Samples.online ttl_uniform_empty).
Defined.

End Writes.

(** ** Pages *)

Section Pages.

Import JS CountriesService.

Lemma firstn_plus {A} (a b : nat) (l : list A) :
  firstn (a + b) l = (firstn a l ++ firstn b (skipn a l))%list.
Proof.
  revert l. induction a as [| a IH]; intros l; [reflexivity |].
  destruct l as [| x l]; simpl; [destruct b; reflexivity |].
  rewrite IH. reflexivity.
Qed.

(** Consecutive chunks of [m] elements make up the list again. *)
Lemma chunks_concat {A} (m n : nat) (l : list A) :
  concat (List.map (fun i => firstn m (skipn (i * m) l)) (seq 0 n))
  = firstn (n * m) l.
Proof.
  induction n as [| n IH]; [reflexivity |].
  rewrite seq_S, List.map_app, concat_app, IH. simpl.
  rewrite app_nil_r, <- firstn_plus. f_equal. lia.
Qed.

Lemma slice_chunk {A} (l : list A) (start len : Z) :
  0 <= start -> 0 <= len ->
  slice l start (start + len)
  = firstn (Z.to_nat len) (skipn (Z.to_nat start) l).
Proof.
  intros Hs Hl. unfold slice, relative_index.
  destruct (Z.ltb_spec start 0); [lia |].
  destruct (Z.ltb_spec (start + len) 0); [lia |].
  destruct (Z_le_gt_dec (Z.of_nat (List.length l)) start) as [Hout | Hin].
  - rewrite !skipn_all2 by lia. rewrite !firstn_nil. reflexivity.
  - replace (Z.min start (Z.of_nat (List.length l))) with start by lia.
    set (rest := skipn (Z.to_nat start) l).
    assert (Hrest : List.length rest = (List.length l - Z.to_nat start)%nat)
      by apply List.length_skipn.
    destruct (Z_le_gt_dec (start + len) (Z.of_nat (List.length l))).
    + f_equal. lia.
    + rewrite !firstn_all2; [reflexivity | lia | lia].
Qed.

Lemma fallback_total (f : CountryFilters) (p : PaginationOptions) (time : string) :
  total (meta (getFallbackCountries f p time))
  = Z.of_nat (List.length
                (List.filter (Prisma.row_matches (where_clause f))
                             getFallbackCountryData)).
Proof.
  unfold getFallbackCountries. cbv zeta. cbn [meta total].
  do 2 f_equal. generalize getFallbackCountryData as table. intros table.
  unfold Prisma.row_matches, where_clause. cbn [Prisma.where_continent
    Prisma.where_region Prisma.where_OR].
  destruct (truthy (f_continent f)), (truthy (f_region f)), (truthy (f_search f));
    rewrite ?filter_filter;
    try (apply List.filter_ext; intros row; simpl;
         rewrite ?orb_false_r, ?andb_true_r, ?andb_assoc, ?orb_assoc;
         reflexivity).
  symmetry. apply filter_true.
Qed.

(** The page that [getCountries] computes is the chunk of the matching
    rows that starts after [(page - 1) * limit] of them. *)
Lemma computed_page (filters pagination : jsobject) (w : World)
    (f : CountryFilters) (p : PaginationOptions) :
  as_CountryFilters filters = Some f ->
  as_PaginationOptions pagination = Some p ->
  0 < page p -> 0 < limit p ->
  Prisma.isDbConnected (prisma w) = false
  \/ CacheManager.get (cacheManager w) (filtered_key filters pagination) = None ->
  exists r c,
    getCountries filters pagination w = Some (Return (VPaginated r), c)
    /\ data r = firstn (Z.to_nat (limit p))
                  (skipn (Z.to_nat ((page p - 1) * limit p)) (matching_rows w f))
    /\ total (meta r) = Z.of_nat (List.length (matching_rows w f))
    /\ totalPages (meta r) = Math_ceil_div (total (meta r)) (limit p)
    /\ hasNext (meta r) = (page p <? totalPages (meta r)).
Proof.
  intros Hf Hp Hpage Hlimit Hpath. unfold getCountries, matching_rows.
  rewrite Hf, Hp. cbn [mbind option_bind].
  destruct (Prisma.isDbConnected (prisma w)) eqn:Hconn; cbn [negb].
  - destruct Hpath as [Hoff | Hmiss]; [discriminate Hoff |]. rewrite Hmiss.
    rewrite findMany_in_range by nia.
    eexists _, _. split; [reflexivity |].
    cbn [data meta total totalPages hasNext].
    split; [rewrite <- List.firstn_map, <- List.skipn_map; reflexivity |].
    split; [| split; reflexivity].
    unfold Prisma.count. rewrite List.length_map.
    rewrite (Permutation_length (sort_perm Prisma.name_asc _)). reflexivity.
  - eexists _, _. split; [reflexivity |].
    rewrite fallback_selection.
    unfold getFallbackCountries. cbv zeta.
    cbn [data meta total totalPages hasNext].
    split; [apply slice_chunk; nia |].
    split; [| split; reflexivity].
    apply (fallback_total f p (now w)).
Qed.

Lemma matching_rows_In (w : World) (f : CountryFilters) (r : CountryDto) :
  List.In r (matching_rows w f)
  <-> List.In r (dataset w) /\ Prisma.row_matches (where_clause f) r = true.
Proof.
  unfold matching_rows, dataset.
  destruct (Prisma.isDbConnected (prisma w)).
  - rewrite !(List.map_ext _ (fun x => x) transformToDto_id), !List.map_id.
    rewrite sort_In. apply List.filter_In.
  - apply List.filter_In.
Qed.

Lemma page_request_typed (k : nat) (limit : Z) :
  as_PaginationOptions (page_request k limit)
  = Some {| page := Z.of_nat k; limit := limit |}.
Proof. reflexivity. Qed.

(** X5.  Paging through a listing loses and repeats nothing.  For a
    positive limit, the pages 1 to [totalPages] that [getCountries]
    computes (from the fallback table when the store is down, from the
    store when no page of the listing is cached), put end to end, are
    the matching rows, each exactly once and in their order; and the
    matching rows are the records of the dataset that pass the filters. *)
Theorem pages_tile_the_matching_rows :
  forall (filters : jsobject) (w : World) (f : CountryFilters) (limit : Z),
    as_CountryFilters filters = Some f ->
    0 < limit ->
    Prisma.isDbConnected (prisma w) = false
    \/ (forall k, CacheManager.get (cacheManager w)
                    (filtered_key filters (page_request k limit)) = None) ->
    let pages :=
      Z.to_nat (Math_ceil_div (Z.of_nat (List.length (matching_rows w f))) limit) in
    concat (List.map (fun k => listed (getCountries filters (page_request k limit) w))
                     (seq 1 pages))
    = matching_rows w f
    /\ (forall r, List.In r (matching_rows w f)
                  <-> List.In r (dataset w)
                      /\ Prisma.row_matches (where_clause f) r = true).
Proof.
  intros filters w f limit Hf Hlimit Hpath pages.
  split; [| intros r; apply matching_rows_In].
  rewrite <- seq_shift, List.map_map.
  rewrite (List.map_ext _
             (fun i => firstn (Z.to_nat limit)
                         (skipn (i * Z.to_nat limit) (matching_rows w f)))).
  - rewrite chunks_concat. apply firstn_all2.
    pose proof (Math_ceil_div_bounds
                  (Z.of_nat (List.length (matching_rows w f))) limit Hlimit) as Hb.
    unfold pages. nia.
  - intros i.
    destruct (computed_page filters (page_request (S i) limit) w f
                {| page := Z.of_nat (S i); Dto.limit := limit |} Hf
                (page_request_typed (S i) limit)) as (r & c & Hcall & Hdata & _).
    + cbn [page]. lia.
    + exact Hlimit.
    + destruct Hpath as [Hoff | Hmiss]; [left; exact Hoff | right; apply Hmiss].
    + rewrite Hcall. cbn [listed]. rewrite Hdata. cbn [page Dto.limit].
      do 2 f_equal. nia.
Qed.

Lemma pages_tile_the_matching_rows_witness :
  concat (List.map (fun k => listed (getCountries Samples.no_filters
                                       (page_request k 3) Samples.offline))
                   (seq 1 3))
  = getFallbackCountryData.
Proof.
  apply (proj1 (pages_tile_the_matching_rows
                  Samples.no_filters Samples.offline
                  {| f_continent := None; f_region := None; f_search := None |}
                  3 eq_refl eq_refl (or_introl eq_refl))).
Defined.

(** X6.  A computed page is empty exactly when it lies past the last
    page: for a positive page and limit, [data] is empty if and only if
    [page > totalPages], on the fallback path and on the store path; in
    particular a listing without matching rows has zero pages and every
    page of it is empty. *)
Theorem page_empty_iff_past_last :
  forall (filters pagination : jsobject) (w : World) f p,
    as_CountryFilters filters = Some f ->
    as_PaginationOptions pagination = Some p ->
    0 < page p -> 0 < limit p ->
    Prisma.isDbConnected (prisma w) = false
    \/ CacheManager.get (cacheManager w) (filtered_key filters pagination) = None ->
    exists r c,
      getCountries filters pagination w = Some (Return (VPaginated r), c)
      /\ (data r = [] <-> totalPages (meta r) < page p)
      /\ (total (meta r) = 0 -> totalPages (meta r) = 0 /\ data r = []).
Proof.
  intros filters pagination w f p Hf Hp Hpage Hlimit Hpath.
  destruct (computed_page filters pagination w f p Hf Hp Hpage Hlimit Hpath)
    as (r & c & Hcall & Hdata & Htotal & Hpages & _).
  exists r, c. split; [exact Hcall |].
  pose proof (Math_ceil_div_bounds (total (meta r)) (limit p) Hlimit) as Hb.
  rewrite <- Hpages in Hb.
  set (rows := matching_rows w f) in *.
  assert (Hlen : List.length (data r)
                 = Nat.min (Z.to_nat (limit p))
                     (List.length rows - Z.to_nat ((page p - 1) * limit p)))
    by (rewrite Hdata, List.length_firstn, List.length_skipn; reflexivity).
  assert (Hiff : data r = [] <-> totalPages (meta r) < page p).
  { split.
    - intros Hnil. rewrite Hnil in Hlen. simpl in Hlen. nia.
    - intros Hpast. apply List.length_zero_iff_nil. nia. }
  split; [exact Hiff |].
  intros Hzero. assert (totalPages (meta r) = 0) by nia.
  split; [assumption | apply Hiff; lia].
Qed.

Lemma page_empty_iff_past_last_witness :
  exists r c,
    getCountries Samples.no_filters Samples.first_page Samples.offline
    = Some (Return (VPaginated r), c)
    /\ (data r = [] <-> totalPages (meta r) < 1)
    /\ (total (meta r) = 0 -> totalPages (meta r) = 0 /\ data r = []).
Proof.
  apply (page_empty_iff_past_last
           Samples.no_filters Samples.first_page Samples.offline
           {| f_continent := None; f_region := None; f_search := None |}
           {| page := 1; limit := 20 |}
           eq_refl eq_refl eq_refl eq_refl (or_introl eq_refl)).
Defined.

End Pages.

(** ** Populating the cache and reading it back *)

Section CacheAside.

Import JS CountriesService.

Lemma get_set_same (c : CacheManager.Cache) (k : string) (v : Value) (ttl : Z) :
  CacheManager.get (CacheManager.set c k v ttl) k = Some v.
Proof. rewrite get_set. destruct (decide (k = k)); [reflexivity | contradiction]. Qed.

Lemma get_invalidated (w : World) (key : string) :
  CacheManager.get (snd (invalidateCache w)) key
  = if bool_decide (key ∈ aggregate_keys) then None
    else CacheManager.get (cacheManager w) key.
Proof.
  unfold invalidateCache, CacheManager.get, CacheManager.del, aggregate_keys.
  cbn [snd]. rewrite !lookup_delete.
  case_bool_decide as Hin; rewrite !elem_of_cons, elem_of_nil in Hin.
  - destruct Hin as [-> | [-> | [-> | []]]];
      repeat (destruct (decide _) as [? | ?]; try reflexivity; try congruence).
  - repeat (destruct (decide _) as [<- | ?]; [exfalso; tauto |]). reflexivity.
Qed.

(** X7.  A listing computed from the store is stored under the key of
    its request, stamped with the time of that call.  As long as the
    cache still holds that entry (it has not expired and was not
    replaced) and the store is connected, a request with the same key
    gets the very page of the first call, its timestamp included, from
    any state of the store and at any reading of the clock, and the call
    writes nothing. *)
Theorem listing_is_served_while_cached :
  forall (filters pagination : jsobject) (w : World) f p,
    as_CountryFilters filters = Some f ->
    as_PaginationOptions pagination = Some p ->
    0 < page p -> 0 < limit p ->
    Prisma.isDbConnected (prisma w) = true ->
    CacheManager.get (cacheManager w) (filtered_key filters pagination) = None ->
    exists r c,
      getCountries filters pagination w = Some (Return (VPaginated r), c)
      /\ timestamp r = now w
      /\ CacheManager.get c (filtered_key filters pagination) = Some (VPaginated r)
      /\ forall (w' : World) (filters' pagination' : jsobject) f' p',
           CacheManager.get (cacheManager w') (filtered_key filters pagination)
           = Some (VPaginated r) ->
           Prisma.isDbConnected (prisma w') = true ->
           as_CountryFilters filters' = Some f' ->
           as_PaginationOptions pagination' = Some p' ->
           filtered_key filters' pagination' = filtered_key filters pagination ->
           getCountries filters' pagination' w'
           = Some (Return (VPaginated r), cacheManager w').
Proof.
  intros filters pagination w f p Hf Hp Hpage Hlimit Hconn Hmiss.
  unfold getCountries at 1. rewrite Hf, Hp. cbn [mbind option_bind].
  rewrite Hconn, Hmiss. cbn [negb]. rewrite findMany_in_range by nia.
  eexists _, _. split; [reflexivity |]. split; [reflexivity |].
  split; [apply get_set_same |].
  intros w' filters' pagination' f' p' Hentry Hconn' Hf' Hp' Hkey.
  unfold getCountries. rewrite Hf', Hp'. cbn [mbind option_bind].
  rewrite Hconn', Hkey, Hentry. reflexivity.
Qed.

Lemma listing_is_served_while_cached_witness :
  exists r c,
    getCountries Samples.no_filters Samples.first_page Samples.online
    = Some (Return (VPaginated r), c)
    /\ timestamp r = now Samples.online
    /\ CacheManager.get c (filtered_key Samples.no_filters Samples.first_page)
       = Some (VPaginated r)
    /\ forall (w' : World) (filters' pagination' : jsobject) f' p',
         CacheManager.get (cacheManager w')
                          (filtered_key Samples.no_filters Samples.first_page)
         = Some (VPaginated r) ->
         Prisma.isDbConnected (prisma w') = true ->
         as_CountryFilters filters' = Some f' ->
         as_PaginationOptions pagination' = Some p' ->
         filtered_key filters' pagination'
         = filtered_key Samples.no_filters Samples.first_page ->
         getCountries filters' pagination' w'
         = Some (Return (VPaginated r), cacheManager w').
Proof.
  apply (listing_is_served_while_cached
           Samples.no_filters Samples.first_page Samples.online
           {| f_continent := None; f_region := None; f_search := None |}
           {| page := 1; limit := 20 |}
           eq_refl eq_refl eq_refl eq_refl eq_refl eq_refl).
Defined.

(** X8.  [invalidateCache] refreshes nothing but the aggregates: a page
    or a record that was cached before the invalidation is still what
    [getCountries] (store connected) and [getCountryByCode] answer after
    it, whatever the store holds by then. *)
Theorem invalidateCache_keeps_listings_and_lookups :
  forall (w w' : World),
    cacheManager w' = snd (invalidateCache w) ->
    (forall filters pagination f p v,
        as_CountryFilters filters = Some f ->
        as_PaginationOptions pagination = Some p ->
        Prisma.isDbConnected (prisma w') = true ->
        CacheManager.get (cacheManager w) (filtered_key filters pagination) = Some v ->
        getCountries filters pagination w' = Some (Return v, cacheManager w'))
    /\ (forall code v,
           CacheManager.get (cacheManager w) (COUNTRY_BY_CODE ++ toUpperCase code)
           = Some v ->
           getCountryByCode code w' = (Return v, cacheManager w')).
Proof.
  intros w w' Hcache. split.
  - intros filters pagination f p v Hf Hp Hconn Hget.
    unfold getCountries. rewrite Hf, Hp. cbn [mbind option_bind].
    rewrite Hconn, Hcache, get_invalidated, filtered_key_not_aggregate, Hget.
    reflexivity.
  - intros code v Hget. unfold getCountryByCode.
    rewrite Hcache, get_invalidated, code_key_not_aggregate, Hget. reflexivity.
Qed.

Lemma invalidateCache_keeps_listings_and_lookups_witness :
  getCountryByCode "ng"
    {| prisma := prisma Samples.online;
       cacheManager := snd (invalidateCache Samples.offline_with_cached_country);
       now := now Samples.online |}
  = (Return (VCountry Samples.nigeria),
     snd (invalidateCache Samples.offline_with_cached_country)).
Proof.
  apply (proj2 (invalidateCache_keeps_listings_and_lookups
                  Samples.offline_with_cached_country
                  {| prisma := prisma Samples.online;
                     cacheManager :=
                       snd (invalidateCache Samples.offline_with_cached_country);
                     now := now Samples.online |}
                  eq_refl) "ng" (VCountry Samples.nigeria) eq_refl).
Defined.



(** X10.  After [invalidateCache] the two aggregates are computed
    afresh: the next [getAllCountries] lists the rows the store holds at
    that time, and the next [getContinents] answers from the store when
    it is connected and from the fallback table when it is not, whatever
    was cached under the two keys before. *)
Theorem invalidateCache_refreshes_aggregates :
  forall (localeCompare : string -> string -> comparison) (w w' : World),
    cacheManager w' = snd (invalidateCache w) ->
    fst (getAllCountries w')
    = Return (VCountries (List.map transformToDto (Prisma.findMany_all (prisma w'))))
    /\ fst (getContinents localeCompare w')
       = (if Prisma.isDbConnected (prisma w')
          then Return (VEnvelope true "Continents retrieved successfully" (now w')
                         (VContinentData
                            (List.map (fun c => {| continent_name := fst c;
                                                   countryCount := snd c |})
                                      (Prisma.groupBy_continent (prisma w')))))
          else Return (getFallbackContinents localeCompare (now w'))).
Proof.
  intros localeCompare w w' Hcache. split.
  - unfold getAllCountries. rewrite Hcache, get_invalidated. reflexivity.
  - unfold getContinents. rewrite Hcache, get_invalidated.
    change (bool_decide (CONTINENTS ∈ aggregate_keys)) with true. cbv iota.
    destruct (Prisma.isDbConnected (prisma w')); reflexivity.
Qed.

Lemma invalidateCache_refreshes_aggregates_witness :
  fst (getAllCountries
         {| prisma := prisma Samples.online_nigeria;
            cacheManager := snd (invalidateCache Samples.online);
            now := now Samples.online_nigeria |})
  = Return (VCountries [Samples.nigeria]).
Proof.
  apply (proj1 (invalidateCache_refreshes_aggregates
                  String.compare Samples.online
                  {| prisma := prisma Samples.online_nigeria;
                     cacheManager := snd (invalidateCache Samples.online);
                     now := now Samples.online_nigeria |}
                  eq_refl)).
Defined.

(** X11.  A record found in the store is stored under the per-code key
    of the uppercased code.  As long as the cache still holds that entry
    (it has not expired and was not replaced), a lookup of a code with
    the same uppercase form gets that record, whether the store is
    connected or not and whatever it holds, and the call writes nothing.
    Codes are ASCII. *)
Theorem lookup_is_served_while_cached :
  forall (w : World) (code : string) (r : CountryDto),
    ascii_string code = true ->
    ascii_codes (dataset w) ->
    Prisma.isDbConnected (prisma w) = true ->
    CacheManager.get (cacheManager w) (COUNTRY_BY_CODE ++ toUpperCase code) = None ->
    first_match code (dataset w) = Some r ->
    exists c,
      getCountryByCode code w = (Return (VCountry r), c)
      /\ CacheManager.get c (COUNTRY_BY_CODE ++ toUpperCase code) = Some (VCountry r)
      /\ (forall (w' : World) (code' : string),
             CacheManager.get (cacheManager w') (COUNTRY_BY_CODE ++ toUpperCase code)
             = Some (VCountry r) ->
             toUpperCase code' = toUpperCase code ->
             getCountryByCode code' w' = (Return (VCountry r), cacheManager w')).
Proof.
  intros w code r _ _ Hconn Hmiss Hfind.
  rewrite (getCountryByCode_miss code w Hmiss), Hfind, Hconn.
  eexists. split; [reflexivity |]. split; [apply get_set_same |].
  intros w' code' Hentry Hup. unfold getCountryByCode.
  rewrite Hup, Hentry. reflexivity.
Qed.

Lemma lookup_is_served_while_cached_witness :
  exists c,
    getCountryByCode "ng" Samples.online_nigeria
    = (Return (VCountry Samples.nigeria), c)
    /\ CacheManager.get c (COUNTRY_BY_CODE ++ toUpperCase "ng")
       = Some (VCountry Samples.nigeria)
    /\ (forall (w' : World) (code' : string),
           CacheManager.get (cacheManager w') (COUNTRY_BY_CODE ++ toUpperCase "ng")
           = Some (VCountry Samples.nigeria) ->
           toUpperCase code' = toUpperCase "ng" ->
           getCountryByCode code' w'
           = (Return (VCountry Samples.nigeria), cacheManager w')).
Proof.
  apply (lookup_is_served_while_cached Samples.online_nigeria "ng" Samples.nigeria
           eq_refl ltac:(repeat constructor) eq_refl eq_refl eq_refl).
Defined.

End CacheAside.

(** ** Requests that share a key, requests that share an answer *)

Section Requests.

Import JS CountriesService.

(** X12.  [getContinents] stores the bare list of counts, not the
    response.  As long as the cache still holds that entry (it has not
    expired and [invalidateCache] has not deleted it), a call returns
    the list computed from the store on the miss, connected or not, in a
    new envelope stamped with the time of that call, and writes
    nothing. *)
Theorem continents_are_served_while_cached :
  forall (localeCompare : string -> string -> comparison) (w : World),
    Prisma.isDbConnected (prisma w) = true ->
    CacheManager.get (cacheManager w) CONTINENTS = None ->
    exists l c,
      getContinents localeCompare w
      = (Return (VEnvelope true "Continents retrieved successfully" (now w)
                           (VContinentData l)), c)
      /\ CacheManager.get c CONTINENTS = Some (VContinentData l)
      /\ forall (localeCompare' : string -> string -> comparison) (w' : World),
           CacheManager.get (cacheManager w') CONTINENTS = Some (VContinentData l) ->
           getContinents localeCompare' w'
           = (Return (VEnvelope true "Continents retrieved successfully" (now w')
                                (VContinentData l)), cacheManager w').
Proof.
  intros localeCompare w Hconn Hmiss. unfold getContinents at 1.
  rewrite Hmiss, Hconn. cbn [negb].
  eexists _, _. split; [reflexivity |]. split; [apply get_set_same |].
  intros localeCompare' w' Hentry. unfold getContinents.
  rewrite Hentry. reflexivity.
Qed.

Lemma continents_are_served_while_cached_witness :
  exists l c,
    getContinents String.compare Samples.online
    = (Return (VEnvelope true "Continents retrieved successfully"
                         (now Samples.online) (VContinentData l)), c)
    /\ CacheManager.get c CONTINENTS = Some (VContinentData l)
    /\ forall (localeCompare' : string -> string -> comparison) (w' : World),
         CacheManager.get (cacheManager w') CONTINENTS = Some (VContinentData l) ->
         getContinents localeCompare' w'
         = (Return (VEnvelope true "Continents retrieved successfully" (now w')
                              (VContinentData l)), cacheManager w').
Proof.
  apply (continents_are_served_while_cached String.compare Samples.online
           eq_refl eq_refl).
Defined.

Lemma row_matches_same (f f' : CountryFilters) (row : Prisma.CountryRow) :
  same_filters f f' ->
  Prisma.row_matches (where_clause f) row = Prisma.row_matches (where_clause f') row.
Proof.
  intros (Hc & Hr & Hs). unfold Prisma.row_matches, where_clause.
  cbn [Prisma.where_continent Prisma.where_region Prisma.where_OR].
  f_equal; [f_equal |].
  - destruct Hc as [[-> ->] | (-> & -> & Hl)]; [reflexivity |].
    cbn [Prisma.opt_matches Prisma.string_matches]. rewrite Hl. reflexivity.
  - destruct Hr as [[-> ->] | (-> & -> & Hl)]; [reflexivity |].
    cbn [Prisma.opt_matches Prisma.string_matches]. rewrite Hl. reflexivity.
  - destruct Hs as [[-> ->] | (-> & -> & Hl)]; [reflexivity |].
    cbn [existsb Prisma.string_matches snd fst]. rewrite Hl. reflexivity.
Qed.

Lemma fallback_same_filters (f f' : CountryFilters) (p : PaginationOptions)
    (time : string) :
  same_filters f f' ->
  getFallbackCountries f p time = getFallbackCountries f' p time.
Proof.
  intros (Hc & Hr & Hs). unfold getFallbackCountries.
  destruct Hc as [[-> ->] | (-> & -> & ->)];
    destruct Hr as [[-> ->] | (-> & -> & ->)];
    destruct Hs as [[-> ->] | (-> & -> & ->)]; reflexivity.
Qed.

(** X14.  The filters look at no letter case and at no empty string: two
    requests whose continent, region and search values are, field by
    field, both falsy ([undefined] or [""]) or equal up to case get the
    same outcome, page contents and metadata alike, from the fallback
    table when the store is down and from the store when neither request
    is cached. *)
Theorem filters_ignore_case_and_empty_strings :
  forall (filters filters' pagination : jsobject) (w : World) f f' p,
    as_CountryFilters filters = Some f ->
    as_CountryFilters filters' = Some f' ->
    as_PaginationOptions pagination = Some p ->
    same_filters f f' ->
    Prisma.isDbConnected (prisma w) = false
    \/ (CacheManager.get (cacheManager w) (filtered_key filters pagination) = None
        /\ CacheManager.get (cacheManager w) (filtered_key filters' pagination) = None) ->
    fst <$> getCountries filters pagination w
    = fst <$> getCountries filters' pagination w.
Proof.
  intros filters filters' pagination w f f' p Hf Hf' Hp Hsame Hpath.
  unfold getCountries. rewrite Hf, Hf', Hp. cbn [mbind option_bind].
  destruct (Prisma.isDbConnected (prisma w)) eqn:Hconn; cbn [negb].
  - destruct Hpath as [Hoff | [Hmiss Hmiss']]; [discriminate Hoff |].
    rewrite Hmiss, Hmiss'.
    assert (Hrows : List.filter (Prisma.row_matches (where_clause f))
                                (Prisma.country (prisma w))
                    = List.filter (Prisma.row_matches (where_clause f'))
                                  (Prisma.country (prisma w)))
      by (apply List.filter_ext; intros row; apply row_matches_same; exact Hsame).
    unfold Prisma.findMany, Prisma.count. rewrite Hrows.
    destruct ((_ <? 0) || (_ <? 0))%bool; reflexivity.
  - cbn [fmap option_fmap option_map fst].
    rewrite (fallback_same_filters f f' p (now w) Hsame). reflexivity.
Qed.

Lemma filters_ignore_case_and_empty_strings_witness :
  fst <$> getCountries [("continent", JString "EUROPE"); ("search", JString EmptyString)]
            Samples.first_page Samples.offline
  = fst <$> getCountries [("continent", JString "europe")]
              Samples.first_page Samples.offline.
Proof.
  apply (filters_ignore_case_and_empty_strings
           [("continent", JString "EUROPE"); ("search", JString EmptyString)]
           [("continent", JString "europe")]
           Samples.first_page Samples.offline
           {| f_continent := Some "EUROPE"; f_region := None;
              f_search := Some EmptyString |}
           {| f_continent := Some "europe"; f_region := None; f_search := None |}
           {| page := 1; limit := 20 |}
           eq_refl eq_refl eq_refl).
  - split; [right; repeat split | split; left; split; reflexivity].
  - left. reflexivity.
Defined.

End Requests.
